(** * Brain tumour assistant: a shallow embedding of [app.py]

    The application is one Streamlit script.  Its own logic is small:
    the image preprocessor, the upload validator, the classifier wrapper,
    the call that feeds the explainer, the "Predict" button handler and
    the symptom checklist scorer.  Everything else is a call into an
    external collaborator (Pillow, pydicom, Keras, LIME, Wikipedia,
    pyttsx3, Streamlit).

    Modelling choices.
    - Python floats that the script computes are quotients of small
      integers or model outputs that are only compared and selected; they
      are embedded as rationals [Q].  Comparison, maximum and equality of
      finite floats agree with those of the rationals they denote.
    - Streamlit output is a trace of [event]s appended to the [world];
      module-level mutable globals the handlers read ([symptoms]) live in
      the [world] as well, so that "does not mutate" is a statement.
    - Python exceptions are the [Raise] outcome of the monad [M];
      [try_except] is [try: ... except Exception as e: ...].
    - External collaborators (Pillow, Keras, LIME, pydicom, Wikipedia,
      pyttsx3) are interfaces: the classes [Pillow] and [Services].  What is
      assumed of Pillow is the record [PillowSpec]; nothing is assumed of
      the others. *)

From Stdlib Require Import String Ascii List Bool Arith ZArith QArith Lia.
From Stdlib Require Import Permutation.
Import ListNotations.

Local Open Scope string_scope.
Local Open Scope list_scope.

(** ** Exceptions, events and the script monad *)

(** [str(e)] of a caught exception: the only thing the script ever does
    with an exception object is to format it into a message. *)
Definition exn := string.

Inductive result (A : Type) : Type :=
| Return (a : A)
| Raise (e : exn).
Arguments Return {A} a.
Arguments Raise {A} e.

(** [np.array(img)] of a Pillow image: rows, columns, bands of integer
    samples. *)
Definition grid : Type := list (list (list Z)).
(** A float image array, and a batch of them as Keras takes it. *)
Definition tensor3 : Type := list (list (list Q)).
Definition tensor4 : Type := list tensor3.

(** What the user can observe of one run.  [StWriteProb c p] is line 203,
    [st.write(f"{c}: {p:.2f}%")]: the number is kept as it was computed,
    its rendering with two decimals is not modelled.  [StPyplot] carries
    the array that was drawn; [EngineSay] is a text spoken to the end. *)
Inductive event : Type :=
| StWarning (msg : string)
| StError (msg : string)
| StWrite (msg : string)
| StWriteProb (condition : string) (probability : Q)
| StSubheader (msg : string)
| StPyplot (shown : grid)
| EngineSay (text : string).

Record world : Type := mkWorld {
  g_symptoms : list (string * list string);
  out : list event
}.

Definition M (A : Type) : Type := world -> result A * world.

Definition ret {A} (a : A) : M A := fun w => (Return a, w).

Definition raise {A} (e : exn) : M A := fun w => (Raise e, w).

Definition bind {A B} (m : M A) (k : A -> M B) : M B :=
  fun w =>
    match m w with
    | (Return a, w') => k a w'
    | (Raise e, w') => (Raise e, w')
    end.

(** [try: body except Exception as e: handler(e)] *)
Definition try_except {A} (body : M A) (handler : exn -> M A) : M A :=
  fun w =>
    match body w with
    | (Return a, w') => (Return a, w')
    | (Raise e, w') => handler e w'
    end.

Definition lift {A} (r : result A) : M A := fun w => (r, w).

Definition emit (ev : event) : M unit :=
  fun w => (Return tt, mkWorld (g_symptoms w) (out w ++ [ev])).

Definition read_symptoms : M (list (string * list string)) :=
  fun w => (Return (g_symptoms w), w).

Declare Scope script_scope.
Delimit Scope script_scope with script.
Notation "x <- m ;; k" := (bind m (fun x => k))
  (at level 61, m at next level, right associativity) : script_scope.
Notation "' pat <- m ;; k" :=
  (bind m (fun x => match x with pat => k end))
  (at level 61, pat pattern, m at next level, right associativity)
  : script_scope.
Notation "m ;; k" := (bind m (fun _ => k))
  (at level 61, right associativity) : script_scope.
Local Open Scope script_scope.

Definition st_warning (msg : string) : M unit := emit (StWarning msg).
Definition st_error (msg : string) : M unit := emit (StError msg).
Definition st_write (msg : string) : M unit := emit (StWrite msg).

(** [for x in xs: body(x)] *)
Fixpoint for_each {A} (xs : list A) (body : A -> M unit) : M unit :=
  match xs with
  | [] => ret tt
  | x :: xs' => body x ;; for_each xs' body
  end.

(** [for x in xs: acc = body(acc, x)], the loop carrying a local. *)
Fixpoint for_fold {A S} (xs : list A) (body : S -> A -> M S) (acc : S) : M S :=
  match xs with
  | [] => ret acc
  | x :: xs' => acc' <- body acc x ;; for_fold xs' body acc'
  end.

(** ** Static reference data (lines 32 to 65) *)

Definition categories : list string :=
  ["glioma"; "meningioma"; "no tumor"; "pituitary"].

Definition symptoms : list (string * list string) :=
  [ ("Glioma",
     [ "Headaches";
       "Seizures";
       "Vision problems";
       "Nausea and vomiting";
       "Difficulty with balance and coordination";
       "Changes in personality or behavior";
       "Weakness or numbness in limbs" ]);
    ("Meningioma",
     [ "Headaches";
       "Seizures";
       "Vision changes";
       "Hearing loss or ringing in the ears";
       "Nausea and vomiting";
       "Weakness or numbness";
       "Difficulty with speech or movement" ]);
    ("No Tumor",
     [ "No specific symptoms related to a tumor; symptoms are typically related to other conditions." ]);
    ("Pituitary Tumor",
     [ "Headaches";
       "Vision problems";
       "Unexplained weight gain or loss";
       "Changes in menstrual cycle or sexual function";
       "Growth of hands and feet (in case of acromegaly)";
       "Fatigue";
       "Changes in mood or cognitive functions" ]) ].

(** The process state right after the module body has run. *)
Definition boot : world := mkWorld symptoms [].

(** ** Python built-ins the scorer uses *)

(** [x in xs] for a list of strings *)
Definition str_in (x : string) (xs : list string) : bool :=
  existsb (String.eqb x) xs.

(** [sep.join(xs)] *)
Fixpoint join (sep : string) (xs : list string) : string :=
  match xs with
  | [] => ""
  | [x] => x
  | x :: xs' => (x ++ sep ++ join sep xs')%string
  end.

(** [d[k] = v] on an insertion-ordered dict: an existing key keeps its
    position, a new key goes last. *)
Fixpoint dict_set {V} (d : list (string * V)) (k : string) (v : V)
  : list (string * V) :=
  match d with
  | [] => [(k, v)]
  | (k', v') :: d' =>
      if String.eqb k' k then (k', v) :: d' else (k', v') :: dict_set d' k v
  end.

Definition keys {V} (d : list (string * V)) : list string := map fst d.
Definition values {V} (d : list (string * V)) : list V := map snd d.

(** The running maximum both [max] and [np.max] compute: the candidate is
    replaced only by a strictly larger element. *)
Definition max_from (xs : list Q) (best : Q) : Q :=
  fold_left (fun m y => if Qlt_le_dec m y then y else m) xs best.

(** [max(xs)]: the first maximal element; [ValueError] on an empty
    sequence. *)
Definition py_max (xs : list Q) : result Q :=
  match xs with
  | [] => Raise "max() arg is an empty sequence"
  | x :: xs' => Return (max_from xs' x)
  end.

(** [xs.count(v)] with [==] on numbers *)
Definition py_count (xs : list Q) (v : Q) : nat :=
  length (filter (fun x => Qeq_bool x v) xs).

(** [a / b] on numbers: [ZeroDivisionError] when [b] is zero. *)
Definition true_div (a b : Z) : result Q :=
  if Z.eqb b 0 then Raise "division by zero"
  else Return (inject_Z a / inject_Z b)%Q.

(** ** The "Diagnosis Test" page (lines 177 to 208) *)

(** Lines 181 to 185: one checkbox per distinct symptom, in order of first
    appearance.  [checkbox s] is the state of the widget labelled [s]. *)
Definition symptom_selection (tbl : list (string * list string))
    (checkbox : string -> bool) : list (string * bool) :=
  fold_left
    (fun sel symptom_list =>
       fold_left
         (fun sel symptom =>
            if str_in symptom (keys sel) then sel
            else sel ++ [(symptom, checkbox symptom)])
         symptom_list sel)
    (values tbl) [].

(** Line 188 *)
Definition selected_symptoms (selection : list (string * bool)) : list string :=
  map fst (filter snd selection).

(** Line 196: [sum(1 for symptom in selected_symptoms if symptom in symptom_list)] *)
Definition match_count (selected : list string) (symptom_list : list string) : nat :=
  length (filter (fun symptom => str_in symptom symptom_list) selected).

(** Lines 196 and 197 *)
Definition probability (selected : list string) (symptom_list : list string)
  : result Q :=
  match true_div (Z.of_nat (match_count selected symptom_list))
                 (Z.of_nat (length symptom_list)) with
  | Return q => Return (q * 100)%Q
  | Raise e => Raise e
  end.

(** Lines 193 to 198: the dict of percentages. *)
Definition compute_probabilities (tbl : list (string * list string))
    (selected : list string) : M (list (string * Q)) :=
  let probabilities := map (fun condition => (condition, 0%Q)) (keys tbl) in
  for_fold tbl
    (fun probabilities '(condition, symptom_list) =>
       p <- lift (probability selected symptom_list) ;;
       ret (dict_set probabilities condition p))
    probabilities.

Definition clash_msg : string :=
  "There may be a clash between multiple conditions. Please consult a doctor.".
Definition no_match_msg : string :=
  "No matching conditions found. Please consult a doctor for further evaluation.".
Definition none_selected_msg : string :=
  "Please select at least one symptom.".

(** Lines 189 to 208: the body of [if st.button("Diagnose")], after the
    selection has been read. *)
Definition diagnose (selected : list string) : M unit :=
  match selected with
  | [] => st_warning none_selected_msg
  | _ :: _ =>
      st_write ("Selected Symptoms: " ++ join ", " selected)%string ;;
      tbl <- read_symptoms ;;
      probabilities <- compute_probabilities tbl selected ;;
      max_prob <- lift (py_max (values probabilities)) ;;
      st_write "Diagnosis Result:" ;;
      for_each probabilities
        (fun '(condition, p) => emit (StWriteProb condition p)) ;;
      if Nat.ltb 1 (py_count (values probabilities) max_prob)
      then st_warning clash_msg
      else if Qeq_bool max_prob 0
      then st_warning no_match_msg
      else ret tt
  end.

(** Lines 181 to 208 with the button pressed. *)
Definition diagnosis_test (checkbox : string -> bool) : M unit :=
  tbl <- read_symptoms ;;
  diagnose (selected_symptoms (symptom_selection tbl checkbox)).

(** ** External collaborators *)

(** Pillow, as far as the script uses it.  [Image] is Pillow's image
    object, of any mode and size; [size] is [(width, height)];
    [np_array img] is [np.array(img)].  The three operations are taken to
    return: an image whose pixel data Pillow cannot load is outside this
    interface.  In the script this matters at line 100 only, where
    [predict] preprocesses outside its [try]. *)
Class Pillow : Type := {
  Image : Type;
  mode : Image -> string;
  size : Image -> nat * nat;
  convert : Image -> string -> Image;
  resize : Image -> nat * nat -> Image;
  np_array : Image -> grid
}.

(** An RGB array: [h] rows of [w] pixels of three 8-bit samples. *)
Definition rgb_grid (w h : nat) (g : grid) : Prop :=
  length g = h /\
  Forall (fun row =>
            length row = w /\
            Forall (fun px =>
                      length px = 3%nat /\
                      Forall (fun v => (0 <= v <= 255)%Z) px) row) g.

(** What Pillow documents of these operations. *)
Record PillowSpec (P : Pillow) : Prop := {
  convert_mode : forall im, mode (convert im "RGB") = "RGB";
  resize_mode : forall im s, mode (resize im s) = mode im;
  resize_size : forall im s, size (resize im s) = s;
  array_rgb : forall im,
      mode im = "RGB" -> rgb_grid (fst (size im)) (snd (size im)) (np_array im)
}.

Definition UploadedFile : Type := list Byte.byte.

(** What [wikipedia.summary] can do. *)
Inductive wiki_outcome : Type :=
| Summary (text : string)
| DisambiguationError
| PageError
| OtherWikiError (e : exn).

(** Keras, LIME, pydicom, Wikipedia and pyttsx3.  Each call either returns
    or raises. *)
Class Services {P : Pillow} : Type := {
  (* model.predict *)
  model_predict : tensor4 -> result (list (list Q));
  (* pydicom.dcmread(file, force=True) and the dataset's Modality attribute *)
  Dataset : Type;
  dcmread : UploadedFile -> bool -> result Dataset;
  Modality : Dataset -> result string;
  (* PIL.Image.open *)
  Image_open : UploadedFile -> result Image;
  (* LimeImageExplainer().explain_instance and what is read off its result *)
  Explanation : Type;
  explain_instance :
    grid -> (tensor4 -> result (list (list Q))) -> nat -> Z -> nat ->
    result Explanation;
  top_labels : Explanation -> list nat;
  get_image_and_mask :
    Explanation -> nat -> bool -> nat -> bool -> result (grid * list (list Z));
  (* wikipedia.summary(title, sentences=n) *)
  wikipedia_summary : string -> nat -> wiki_outcome;
  (* engine.say(text); engine.runAndWait() *)
  engine_say_and_wait : string -> result unit
}.

(** ** numpy and list operations of the classifier *)

(** [a / 255.0] *)
Definition np_divide_255 (a : grid) : tensor3 :=
  map (map (map (fun v => (inject_Z v / 255)%Q))) a.

(** [np.expand_dims(a, axis=0)] *)
Definition expand_dims0 (a : tensor3) : tensor4 := [a].

(** [np.max(a)] over a flattened array *)
Definition np_max (xs : list Q) : result Q :=
  match xs with
  | [] => Raise "zero-size array to reduction operation maximum which has no identity"
  | x :: xs' => Return (max_from xs' x)
  end.

(** Scan for the first position of the largest value: [i] is the position
    of the head of [xs], [best] the largest value so far, at [best_i]. *)
Fixpoint argmax_from (xs : list Q) (i best_i : nat) (best : Q) : nat :=
  match xs with
  | [] => best_i
  | y :: ys =>
      if Qlt_le_dec best y then argmax_from ys (S i) i y
      else argmax_from ys (S i) best_i best
  end.

(** [np.argmax(a)] over a flattened array *)
Definition np_argmax (xs : list Q) : result nat :=
  match xs with
  | [] => Raise "attempt to get argmax of an empty sequence"
  | x :: xs' => Return (argmax_from xs' 1 0 x)
  end.

(** [xs[i]] for a non-negative index *)
Definition list_index {A} (xs : list A) (i : nat) : result A :=
  match nth_error xs i with
  | Some x => Return x
  | None => Raise "list index out of range"
  end.

(** Truth value of [None] or a string *)
Definition truthy (x : option string) : bool :=
  match x with
  | None => false
  | Some s => negb (String.eqb s "")
  end.

(** ** The image pipeline (lines 76 to 162 and 219 to 227) *)

Section Pipeline.
Context {P : Pillow} {K : Services}.

(** Lines 77 and 78 *)
Definition force_rgb (image : Image) : Image :=
  if negb (String.eqb (mode image) "RGB") then convert image "RGB" else image.

(** Lines 76 to 82 *)
Definition preprocess_image (image : Image) : tensor4 :=
  let image := force_rgb image in
  let img := resize image (150, 150)%nat in
  let img_array := np_divide_255 (np_array img) in
  let img_array := expand_dims0 img_array in
  img_array.

(** Lines 85 to 96.  The inner value is [Some b] when a [return b] inside
    the [try] statement was reached and [None] when control falls through
    to line 96. *)
Definition is_valid_mri (file : UploadedFile) : M bool :=
  returned <-
    try_except
      (dicom_file <- lift (dcmread file true) ;;
       modality <- lift (Modality dicom_file) ;;
       if String.eqb modality "MR" then ret (Some true) else ret None)
      (fun e =>
         try_except
           (image <- lift (Image_open file) ;;
            ret (Some true))
           (fun e =>
              st_warning ("Image validation failed: " ++ e)%string ;;
              ret None)) ;;
  match returned with
  | Some b => ret b
  | None => ret false
  end.

(** Lines 99 to 108 *)
Definition predict (image : Image) : M (option string * option Q) :=
  let preprocessed_image := preprocess_image image in
  try_except
    (predictions <- lift (model_predict preprocessed_image) ;;
     confidence <- lift (np_max (concat predictions)) ;;
     i <- lift (np_argmax (concat predictions)) ;;
     tumor_type <- lift (list_index categories i) ;;
     ret (Some tumor_type, Some confidence))
    (fun e =>
       st_error ("Error in prediction: " ++ e)%string ;;
       ret (None, None)).

(** Line 115: the array handed to the explainer, which perturbs it and
    calls [model.predict] on the perturbed copies. *)
Definition explain_input (image : Image) : grid :=
  np_array (resize image (150, 150)%nat).

(** Lines 111 to 131 *)
Definition explain_prediction (image : Image) : M unit :=
  try_except
    (explanation <-
       lift (explain_instance (explain_input image) model_predict 1 0 1000) ;;
     emit (StSubheader "OUTPUT of the SCAN :") ;;
     label <- lift (list_index (top_labels explanation) 0) ;;
     '(temp, mask) <-
       lift (get_image_and_mask explanation label true 5 false) ;;
     emit (StPyplot temp))
    (fun e => st_error ("Error in explanation: " ++ e)%string).

(** Lines 134 to 141 *)
Definition get_tumor_info (tumor_type : string) : M string :=
  match wikipedia_summary tumor_type 2 with
  | Summary summary => ret summary
  | DisambiguationError =>
      ret ("Multiple results found for " ++ tumor_type
             ++ ". Please specify further.")%string
  | PageError =>
      ret ("No information found on Wikipedia for " ++ tumor_type ++ ".")%string
  | OtherWikiError e => raise e
  end.

(** Lines 157 to 162 *)
Definition speak_text (text : string) : M unit :=
  try_except
    (lift (engine_say_and_wait text) ;;
     emit (EngineSay text))
    (fun e => st_error ("Error with TTS: " ++ e)%string).

(** Lines 219 to 227: the body of [if st.button("Predict")]. *)
Definition on_predict (image : Image) : M unit :=
  '(prediction, confidence) <- predict image ;;
  if truthy prediction then
    let tumor_type := match prediction with Some t => t | None => "" end in
    st_write ("Prediction: " ++ tumor_type)%string ;;
    explain_prediction image ;;
    tumor_info <- get_tumor_info tumor_type ;;
    st_write ("Tumor Information: " ++ tumor_info)%string ;;
    speak_text tumor_info
  else ret tt.

End Pipeline.

(** ** Notions the properties are stated with *)

(** The percentage line 197 computes once the division has succeeded. *)
Definition percentage (selected symptom_list : list string) : Q :=
  (inject_Z (Z.of_nat (match_count selected symptom_list))
   / inject_Z (Z.of_nat (length symptom_list)) * 100)%Q.

(** The percentage as the specification words it: the number of the
    condition's symptoms that appear in the selected set, over the number of
    symptoms listed for the condition, times 100. *)
Definition spec_percentage (selected symptom_list : list string) : Q :=
  (inject_Z (Z.of_nat (length (filter (fun s => str_in s selected) symptom_list)))
   / inject_Z (Z.of_nat (length symptom_list)) * 100)%Q.

(** The dict of percentages once every condition of [tbl] has been scored,
    and before any has. *)
Definition scored (selected : list string) (tbl : list (string * list string))
  : list (string * Q) :=
  map (fun entry => (fst entry, percentage selected (snd entry))) tbl.

Definition unscored (tbl : list (string * list string)) : list (string * Q) :=
  map (fun condition => (condition, 0%Q)) (keys tbl).

(** The lines printed for a non-empty selection, before any warning. *)
Definition report_lines (selected : list string) : list event :=
  [StWrite ("Selected Symptoms: " ++ join ", " selected)%string;
   StWrite "Diagnosis Result:"]
  ++ map (fun entry => StWriteProb (fst entry) (percentage selected (snd entry)))
         symptoms.

(** A computation that leaves the globals alone and whose result and
    output depend on the globals only, not on what was printed before. *)
Definition stable {A} (m : M A) : Prop :=
  forall tbl, exists r evs,
    forall o, m (mkWorld tbl o) = (r, mkWorld tbl (o ++ evs)).

(** The world after appending [evs] to the page. *)
Definition printed (w : world) (evs : list event) : world :=
  mkWorld (g_symptoms w) (out w ++ evs).

(** A regular four-dimensional array of the given shape. *)
Definition has_shape4 (a b c d : nat) (t : tensor4) : Prop :=
  length t = a /\
  Forall (fun x =>
            length x = b /\
            Forall (fun y =>
                      length y = c /\
                      Forall (fun z => length z = d) y) x) t.

Definition all_in_unit (t : tensor4) : Prop :=
  Forall (Forall (Forall (Forall (fun q => (0 <= q <= 1)%Q)))) t.




Section Outcomes.
Context {P : Pillow} {K : Services}.

(** The [try] block of [is_valid_mri] raised: the DICOM read failed, or
    it produced a dataset without a [Modality] attribute. *)
Definition dicom_attempt_raises (file : UploadedFile) : Prop :=
  (exists e, dcmread file true = Raise e) \/
  (exists ds e, dcmread file true = Return ds /\ Modality ds = Raise e).

(** The [try] block of [predict] raised [e]: the model call itself, or
    one of the three lines that read the category off its output. *)
Definition inference_raises (image : Image) (e : exn) : Prop :=
  model_predict (preprocess_image image) = Raise e \/
  exists predictions,
    model_predict (preprocess_image image) = Return predictions /\
    (np_max (concat predictions) = Raise e \/
     exists i,
       np_argmax (concat predictions) = Return i /\
       list_index categories i = Raise e).

End Outcomes.

(** ** A small instance of the collaborators

    Images are functions from (row, column, band) to a sample; resizing
    samples the nearest source pixel; conversion to RGB replicates the
    first band.  Used to show that the assumptions made on the
    collaborators can be met and to run the pipeline on concrete inputs. *)
Module Demo.

Record raster : Type := mkRaster {
  r_mode : string;
  r_size : nat * nat;
  r_px : nat -> nat -> nat -> Z
}.

Definition r_bands (m : string) : nat :=
  if String.eqb m "RGB" then 3 else 1.

Definition clamp8 (v : Z) : Z := Z.max 0 (Z.min 255 v).

Definition r_array (im : raster) : grid :=
  map (fun r =>
         map (fun c =>
                map (fun k => clamp8 (r_px im r c k))
                    (seq 0 (r_bands (r_mode im))))
             (seq 0 (fst (r_size im))))
      (seq 0 (snd (r_size im))).

Definition r_convert (im : raster) (m : string) : raster :=
  mkRaster m (r_size im) (fun r c _ => r_px im r c 0).

Definition r_resize (im : raster) (s : nat * nat) : raster :=
  let '(w0, h0) := r_size im in
  let '(w, h) := s in
  mkRaster (r_mode im) s
    (fun r c k =>
       r_px im (((2 * r + 1) * h0) / (2 * h)) (((2 * c + 1) * w0) / (2 * w)) k).

Definition pillow : Pillow :=
  {| Image := raster;
     mode := r_mode;
     size := r_size;
     convert := r_convert;
     resize := r_resize;
     np_array := r_array |}.

(** A 2 by 2 greyscale image and a 4 by 4 RGB image. *)
Definition grey2 : raster :=
  mkRaster "L" (2, 2)%nat (fun r c _ => Z.of_nat (100 * r + 50 * c)).
Definition rgb4 : raster :=
  mkRaster "RGB" (4, 4)%nat (fun r c k => Z.of_nat (60 * r + 10 * c + k)).

(** Uploads are told apart by their first bytes. *)
Definition d_dcmread (file : UploadedFile) (force : bool)
  : result UploadedFile :=
  match file with
  | [] => Raise "File is empty"
  | _ :: _ => Return file
  end.

Definition d_Modality (ds : UploadedFile) : result string :=
  match ds with
  | Byte.x4d :: Byte.x52 :: _ => Return "MR"
  | Byte.x43 :: Byte.x54 :: _ => Return "CT"
  | _ => Raise "'FileDataset' object has no attribute 'Modality'"
  end.

Definition d_Image_open (file : UploadedFile) : result raster :=
  match file with
  | Byte.x89 :: _ => Return rgb4
  | _ => Raise "cannot identify image file"
  end.

Definition services (model : tensor4 -> result (list (list Q)))
  : @Services pillow :=
  @Build_Services pillow
    model
    UploadedFile d_dcmread d_Modality
    d_Image_open
    grid (fun g _ _ _ _ => Return g) (fun _ => [0%nat])
    (fun g _ _ _ _ => Return (g, []))
    (fun title _ => Summary title)
    (fun _ => Return tt).

Definition good_model : tensor4 -> result (list (list Q)) :=
  fun _ => Return [[1 # 10; 7 # 10; 1 # 10; 1 # 10]]%Q.
Definition failing_model : tensor4 -> result (list (list Q)) :=
  fun _ => Raise "Graph execution error".

Definition headaches_and_seizures (s : string) : bool :=
  String.eqb s "Headaches" || String.eqb s "Seizures".

End Demo.

(** ** The rest of the script *)

(** Lines 165 and 166 *)
Definition translate_role_for_streamlit (user_role : string) : string :=
  if String.eqb user_role "model" then "assistant" else user_role.

Definition apology : string := "Sorry, I couldn't fetch the response.".

Section Chat.
Context {ChatSession : Type}.
Variable send_message : ChatSession -> string -> result string.

(** Lines 144 to 151.  [chat_session] is the outcome of reading
    [st.session_state.chat_session]: the session, or the [AttributeError]
    raised when the page could not create one.  [send_message s q] is the
    text of the response to [q], or what the call or the read of [.text]
    raised. *)
Definition get_chatbot_response (chat_session : result ChatSession)
    (query : string) : M string :=
  try_except
    (session <- lift chat_session ;;
     gemini_response_text <- lift (send_message session query) ;;
     ret gemini_response_text)
    (fun e =>
       st_error ("Error with Google Gemini API: " ++ e)%string ;;
       ret apology).

End Chat.

Section TryBlock.
Context {P : Pillow} {K : Services}.

(** Lines 101 to 108: the [try] statement of [predict], given the tensor
    that line 100 produced. *)
Definition predict_try (preprocessed_image : tensor4)
  : M (option string * option Q) :=
  try_except
    (predictions <- lift (model_predict preprocessed_image) ;;
     confidence <- lift (np_max (concat predictions)) ;;
     i <- lift (np_argmax (concat predictions)) ;;
     tumor_type <- lift (list_index categories i) ;;
     ret (Some tumor_type, Some confidence))
    (fun e =>
       st_error ("Error in prediction: " ++ e)%string ;;
       ret (None, None)).

End TryBlock.

Definition invalid_mri_msg : string :=
  "Invalid MRI image. Please upload a valid MRI image.".

Section TumorDetectionPage.
Context {P : Pillow} {K : Services}.

(** [st.image(image, caption=..., use_column_width=True)]: a Streamlit call
    whose effect on the page is left open. *)
Variable st_image : Image -> string -> M unit.

(** Lines 214 to 229.  [uploaded_file] is what the uploader returned and
    [predict_pressed] the state of the "Predict" button. *)
Definition tumor_detection (uploaded_file : option UploadedFile)
    (predict_pressed : bool) : M unit :=
  match uploaded_file with
  | None => ret tt
  | Some file =>
      valid <- is_valid_mri file ;;
      if valid then
        image <- lift (Image_open file) ;;
        st_image image "Uploaded Image" ;;
        if predict_pressed then on_predict image else ret tt
      else st_error invalid_mri_msg
  end.

End TumorDetectionPage.

(** The flattened symptom table: every listed symptom, in order, with
    repetitions. *)
Definition listed_symptoms (tbl : list (string * list string)) : list string :=
  concat (values tbl).

(** The two fallback texts of [get_tumor_info] (lines 139 and 141). *)
Definition fallback_ambiguous (tumor_type : string) : string :=
  ("Multiple results found for " ++ tumor_type ++ ". Please specify further.")%string.
Definition fallback_missing (tumor_type : string) : string :=
  ("No information found on Wikipedia for " ++ tumor_type ++ ".")%string.

(** [info] is what [get_tumor_info] returns on the lookup outcome [o]. *)
Definition lookup_text (tumor_type : string) (o : wiki_outcome) (info : string)
  : Prop :=
  o = Summary info \/
  (o = DisambiguationError /\ info = fallback_ambiguous tumor_type) \/
  (o = PageError /\ info = fallback_missing tumor_type).

(** Events the explanation stage can print. *)
Definition explanation_event (ev : event) : Prop :=
  match ev with
  | StSubheader _ | StPyplot _ | StError _ => True
  | _ => False
  end.

(** What the explainer prints: see [explain_prediction]. *)
Definition explanation_error (e : exn) : event :=
  StError ("Error in explanation: " ++ e)%string.

(** Further instances of the collaborators, with a chosen behaviour for
    the explainer, the lookup and the speech engine. *)
Module DemoMore.

Definition services_with (model : tensor4 -> result (list (list Q)))
    (explained : result grid) (labels : list nat)
    (masked : result (grid * list (list Z)))
    (looked_up : wiki_outcome) (spoken : result unit)
  : @Services Demo.pillow :=
  @Build_Services Demo.pillow
    model
    UploadedFile Demo.d_dcmread Demo.d_Modality
    Demo.d_Image_open
    grid (fun _ _ _ _ _ => explained) (fun _ => labels)
    (fun _ _ _ _ _ => masked)
    (fun _ _ => looked_up)
    (fun _ => spoken).

(** A model whose largest output sits past the four categories. *)
Definition wide_model : tensor4 -> result (list (list Q)) :=
  fun _ => Return [[1 # 10; 1 # 10; 1 # 10; 1 # 10; 6 # 10]]%Q.


Definition no_image : Demo.raster -> string -> M unit := fun _ _ => ret tt.

Definition echo (session : unit) (query : string) : result string :=
  if String.eqb query "" then Raise "empty prompt" else Return query.

Definition one_empty_list : list (string * list string) :=
  [("Glioma", ["Headaches"]); ("No Tumor", [])].

End DemoMore.

(** * Properties *)

(** ** The script monad *)

Lemma world_eta (w : world) : w = mkWorld (g_symptoms w) (out w).
Proof. destruct w; reflexivity. Qed.

Lemma printed_nil (w : world) : printed w [] = w.
Proof. destruct w; unfold printed; simpl. now rewrite app_nil_r. Qed.

Lemma printed_printed (w : world) (e1 e2 : list event) :
  printed (printed w e1) e2 = printed w (e1 ++ e2).
Proof. unfold printed; simpl. now rewrite app_assoc. Qed.

Lemma run_bind {A B} (m : M A) (k : A -> M B) (w w' : world) (a : A) :
  m w = (Return a, w') -> bind m k w = k a w'.
Proof. intros H; unfold bind; now rewrite H. Qed.

Lemma run_bind_raise {A B} (m : M A) (k : A -> M B) (w w' : world) (e : exn) :
  m w = (Raise e, w') -> bind m k w = (Raise e, w').
Proof. intros H; unfold bind; now rewrite H. Qed.

Lemma run_emit (ev : event) (w : world) :
  emit ev w = (Return tt, printed w [ev]).
Proof. reflexivity. Qed.

Lemma stable_ret {A} (a : A) : stable (ret a).
Proof. intros tbl; exists (Return a), []; intros o; unfold ret; now rewrite app_nil_r. Qed.

Lemma stable_raise {A} (e : exn) : stable (@raise A e).
Proof. intros tbl; exists (Raise e), []; intros o; unfold raise; now rewrite app_nil_r. Qed.

Lemma stable_lift {A} (r : result A) : stable (lift r).
Proof. intros tbl; exists r, []; intros o; unfold lift; now rewrite app_nil_r. Qed.

Lemma stable_emit (ev : event) : stable (emit ev).
Proof. intros tbl; exists (Return tt), [ev]; intros o; reflexivity. Qed.

Lemma stable_read : stable read_symptoms.
Proof.
  intros tbl; exists (Return tbl), []; intros o.
  unfold read_symptoms; simpl; now rewrite app_nil_r.
Qed.

Lemma stable_bind {A B} (m : M A) (k : A -> M B) :
  stable m -> (forall a, stable (k a)) -> stable (bind m k).
Proof.
  intros Hm Hk tbl. destruct (Hm tbl) as [r [evs Hr]].
  destruct r as [a | e].
  - destruct (Hk a tbl) as [r' [evs' Hr']].
    exists r', (evs ++ evs'). intros o.
    unfold bind. rewrite Hr, Hr'. now rewrite app_assoc.
  - exists (Raise e), evs. intros o. unfold bind. now rewrite Hr.
Qed.

Lemma stable_try {A} (body : M A) (handler : exn -> M A) :
  stable body -> (forall e, stable (handler e)) -> stable (try_except body handler).
Proof.
  intros Hm Hk tbl. destruct (Hm tbl) as [r [evs Hr]].
  destruct r as [a | e].
  - exists (Return a), evs. intros o. unfold try_except. now rewrite Hr.
  - destruct (Hk e tbl) as [r' [evs' Hr']].
    exists r', (evs ++ evs'). intros o.
    unfold try_except. rewrite Hr, Hr'. now rewrite app_assoc.
Qed.

Lemma stable_for_each {A} (xs : list A) (body : A -> M unit) :
  (forall x, stable (body x)) -> stable (for_each xs body).
Proof.
  intros Hb. induction xs as [| x xs IH]; simpl.
  - apply stable_ret.
  - apply stable_bind; auto.
Qed.

Lemma stable_for_fold {A S} (xs : list A) (body : S -> A -> M S) :
  (forall acc x, stable (body acc x)) -> forall acc, stable (for_fold xs body acc).
Proof.
  intros Hb. induction xs as [| x xs IH]; intros acc; simpl.
  - apply stable_ret.
  - apply stable_bind; auto.
Qed.

(** Closure of [stable] under the constructs of the script, applied
    syntactically. *)
Ltac stable_tac :=
  repeat first
    [ progress intros
    | progress unfold st_warning, st_error, st_write
    | apply stable_bind | apply stable_try | apply stable_for_each
    | apply stable_for_fold | apply stable_ret | apply stable_raise
    | apply stable_lift | apply stable_emit | apply stable_read
    | match goal with
      | |- stable (match ?x with _ => _ end) => destruct x
      | |- stable (if ?b then _ else _) => destruct b
      end ].

Lemma stable_compute_probabilities tbl selected :
  stable (compute_probabilities tbl selected).
Proof. unfold compute_probabilities. stable_tac. Qed.

Lemma stable_diagnose selected : stable (diagnose selected).
Proof.
  unfold diagnose. destruct selected as [| s0 rest]; [stable_tac |].
  apply stable_bind; [stable_tac |]. intros _.
  apply stable_bind; [stable_tac |]. intros tbl.
  apply stable_bind; [apply stable_compute_probabilities |]. intros probs.
  stable_tac.
Qed.

(** What [stable] gives at an arbitrary world. *)
Lemma stable_run {A} (m : M A) (w : world) :
  stable m ->
  exists r evs,
    forall o, m (mkWorld (g_symptoms w) o) = (r, mkWorld (g_symptoms w) (o ++ evs)).
Proof. intros H. apply H. Qed.

(** ** Lists of strings and counting *)

Lemma str_in_In (x : string) (xs : list string) : str_in x xs = true <-> In x xs.
Proof.
  unfold str_in. rewrite existsb_exists. split.
  - intros [y [Hy He]]. apply String.eqb_eq in He. now subst.
  - intros H. exists x. split; [assumption | apply String.eqb_refl].
Qed.

Lemma str_in_false (x : string) (xs : list string) :
  str_in x xs = false <-> ~ In x xs.
Proof.
  rewrite <- str_in_In. destruct (str_in x xs); split; congruence.
Qed.

Lemma filter_length_perm {A} (f : A -> bool) (l l' : list A) :
  Permutation l l' -> length (filter f l) = length (filter f l').
Proof.
  induction 1 as [| x l l' _ IH | x y l | l l' l'' _ IH1 _ IH2]; simpl.
  - reflexivity.
  - destruct (f x); simpl; congruence.
  - destruct (f x), (f y); reflexivity.
  - congruence.
Qed.

Lemma match_count_perm (sel sel' l : list string) :
  Permutation sel sel' -> match_count sel l = match_count sel' l.
Proof. intros H. unfold match_count. now apply filter_length_perm. Qed.

Lemma filter_none {A} (f : A -> bool) (l : list A) :
  (forall x, In x l -> f x = false) -> filter f l = [].
Proof.
  induction l as [| a l IH]; simpl; intros H; [reflexivity |].
  rewrite (H a) by now left. apply IH. intros x Hx. apply H. now right.
Qed.

(** Adding one fresh symptom [a] to the selection adds one to the number
    of listed symptoms found in it exactly when [a] is listed. *)
Lemma count_listed_cons (a : string) (sel l : list string) :
  NoDup l -> ~ In a sel ->
  length (filter (fun s => str_in s (a :: sel)) l)
  = ((if str_in a l then 1 else 0) + length (filter (fun s => str_in s sel) l))%nat.
Proof.
  intros Hl Ha. induction l as [| b l IH].
  - reflexivity.
  - inversion Hl as [| ? ? Hb Hl']; subst.
    specialize (IH Hl'). cbn [filter str_in existsb] in *.
    fold (str_in b sel) in *. fold (str_in a l) in *.
    destruct (String.eqb_spec b a) as [-> | Hne].
    + rewrite String.eqb_refl. cbn [orb].
      apply str_in_false in Ha. rewrite Ha.
      apply str_in_false in Hb. rewrite Hb in IH.
      cbn [length]. rewrite IH. reflexivity.
    + assert (String.eqb a b = false) as ->
          by (apply String.eqb_neq; congruence).
      cbn [orb]. destruct (str_in b sel); cbn [length]; rewrite IH; lia.
Qed.

(** Counting selected symptoms that are listed is counting listed symptoms
    that are selected, as long as neither list repeats an entry. *)
Lemma match_count_sym (sel l : list string) :
  NoDup sel -> NoDup l ->
  match_count sel l = length (filter (fun s => str_in s sel) l).
Proof.
  intros Hs Hl. induction sel as [| a sel IH].
  - unfold match_count. simpl. rewrite filter_none; [reflexivity |].
    intros x _. reflexivity.
  - inversion Hs as [| ? ? Ha Hs']; subst.
    rewrite count_listed_cons by assumption.
    rewrite <- IH by assumption.
    unfold match_count. cbn [filter].
    destruct (str_in a l); reflexivity.
Qed.

Lemma percentage_spec (sel l : list string) :
  NoDup sel -> NoDup l -> percentage sel l = spec_percentage sel l.
Proof.
  intros Hs Hl. unfold percentage, spec_percentage.
  now rewrite match_count_sym.
Qed.

Lemma percentage_perm (sel sel' l : list string) :
  Permutation sel sel' -> percentage sel l = percentage sel' l.
Proof. intros H. unfold percentage. now rewrite (match_count_perm sel sel'). Qed.

Lemma percentage_nonneg (sel l : list string) : (0 <= percentage sel l)%Q.
Proof.
  unfold percentage.
  apply Qmult_le_0_compat; [| discriminate].
  apply Qmult_le_0_compat.
  - change 0%Q with (inject_Z 0). rewrite <- Zle_Qle. lia.
  - apply Qinv_le_0_compat.
    change 0%Q with (inject_Z 0). rewrite <- Zle_Qle. lia.
Qed.

Lemma probability_listed (sel l : list string) :
  l <> [] -> probability sel l = Return (percentage sel l).
Proof.
  intros Hl. unfold probability, true_div.
  destruct (Z.eqb_spec (Z.of_nat (length l)) 0) as [H0 | _].
  - destruct l; [congruence | simpl in H0; lia].
  - reflexivity.
Qed.

Lemma probability_perm (sel sel' l : list string) :
  Permutation sel sel' -> probability sel l = probability sel' l.
Proof.
  intros H. unfold probability. now rewrite (match_count_perm sel sel').
Qed.

(** ** The dict of percentages *)

Lemma dict_set_app_skip {V} (d1 d2 : list (string * V)) (k : string) (v0 v : V) :
  ~ In k (keys d1) ->
  dict_set (d1 ++ (k, v0) :: d2) k v = d1 ++ (k, v) :: d2.
Proof.
  induction d1 as [| [k' v'] d1 IH]; intros Hk; simpl.
  - now rewrite String.eqb_refl.
  - destruct (String.eqb_spec k' k) as [-> | Hne].
    + exfalso. apply Hk. now left.
    + rewrite IH; [reflexivity |]. intros Hin. apply Hk. now right.
Qed.

Lemma keys_scored selected tbl : keys (scored selected tbl) = keys tbl.
Proof. unfold keys, scored. rewrite map_map. reflexivity. Qed.

Lemma values_scored selected tbl :
  values (scored selected tbl) = map (fun entry => percentage selected (snd entry)) tbl.
Proof. unfold values, scored. rewrite map_map. reflexivity. Qed.

(** The loop of lines 195 to 198, started after the conditions in [done]
    have been scored, scores the remaining ones in place. *)
Lemma scoring_loop (selected : list string) (rest done : list (string * list string))
    (w : world) :
  NoDup (keys (done ++ rest)) ->
  Forall (fun entry => snd entry <> []) rest ->
  for_fold rest
    (fun probabilities '(condition, symptom_list) =>
       p <- lift (probability selected symptom_list) ;;
       ret (dict_set probabilities condition p))
    (scored selected done ++ unscored rest) w
  = (Return (scored selected (done ++ rest)), w).
Proof.
  revert done. induction rest as [| [c l] rest IH]; intros done Hnd Hne.
  - simpl. unfold unscored, ret. simpl. now rewrite !app_nil_r.
  - inversion Hne as [| ? ? Hl Hne']; subst. simpl in Hl.
    cbn [for_fold]. unfold bind at 1. unfold bind at 1.
    rewrite (probability_listed selected l Hl). unfold lift, ret.
    unfold unscored at 1. cbn [keys map fst].
    rewrite dict_set_app_skip.
    + specialize (IH (done ++ [(c, l)])).
      rewrite <- app_assoc in IH. cbn [app] in IH.
      unfold scored at 1 in IH. rewrite map_app in IH. cbn [map fst snd] in IH.
      rewrite <- app_assoc in IH. cbn [app] in IH.
      apply IH; assumption.
    + rewrite keys_scored. unfold keys in *. rewrite map_app in Hnd.
      cbn [map fst] in Hnd. apply NoDup_remove_2 in Hnd.
      intros Hin. apply Hnd. apply in_or_app. now left.
Qed.

Lemma compute_probabilities_scored (tbl : list (string * list string))
    (selected : list string) (w : world) :
  NoDup (keys tbl) ->
  Forall (fun entry => snd entry <> []) tbl ->
  compute_probabilities tbl selected w = (Return (scored selected tbl), w).
Proof.
  intros Hnd Hne. unfold compute_probabilities.
  apply (scoring_loop selected tbl [] w); assumption.
Qed.

Lemma symptoms_keys_distinct : NoDup (keys symptoms).
Proof.
  unfold keys, symptoms; cbn [map fst].
  repeat constructor; cbn [In]; intros H;
    repeat (destruct H as [H | H]; [discriminate H |]); exact H.
Qed.

Lemma symptoms_lists_nonempty : Forall (fun entry => snd entry <> []) symptoms.
Proof. unfold symptoms. repeat constructor; discriminate. Qed.

Lemma symptoms_lists_distinct : Forall (fun entry => NoDup (snd entry)) symptoms.
Proof.
  unfold symptoms. repeat (apply Forall_cons || apply Forall_nil); cbn [snd];
    repeat constructor; cbn [In]; intros H;
    repeat (destruct H as [H | H]; [discriminate H |]); exact H.
Qed.

(** ** The running maximum *)

Lemma max_from_spec (xs : list Q) (best : Q) :
  (best <= max_from xs best)%Q /\
  Forall (fun x => (x <= max_from xs best)%Q) xs /\
  In (max_from xs best) (best :: xs).
Proof.
  revert best. induction xs as [| y ys IH]; intros best.
  - simpl. repeat split; [apply Qle_refl | constructor | now left].
  - unfold max_from in *. cbn [fold_left].
    destruct (Qlt_le_dec best y) as [Hlt | Hle].
    + destruct (IH y) as [H1 [H2 H3]]. repeat split.
      * apply Qle_trans with y; [now apply Qlt_le_weak | assumption].
      * constructor; assumption.
      * right. exact H3.
    + destruct (IH best) as [H1 [H2 H3]]. repeat split.
      * assumption.
      * constructor; [now apply Qle_trans with best | assumption].
      * destruct H3 as [H3 | H3]; [now left | right; now right].
Qed.

Lemma py_max_upper (xs : list Q) (m : Q) :
  py_max xs = Return m -> Forall (fun x => (x <= m)%Q) xs /\ In m xs.
Proof.
  destruct xs as [| x xs]; simpl; [discriminate |].
  intros H; injection H as <-.
  destruct (max_from_spec xs x) as [H1 [H2 H3]].
  split; [constructor; assumption | exact H3].
Qed.

Lemma py_count_all (xs : list Q) (m : Q) :
  Forall (fun x => (x == m)%Q) xs -> py_count xs m = length xs.
Proof.
  unfold py_count. induction 1 as [| x xs Hx _ IH]; simpl; [reflexivity |].
  apply Qeq_bool_iff in Hx. rewrite Hx. simpl. now rewrite IH.
Qed.

(** With at least two non-negative percentages, a maximum of zero is
    attained by all of them. *)
Lemma zero_max_is_shared (xs : list Q) (m : Q) :
  (2 <= length xs)%nat ->
  Forall (fun x => (0 <= x)%Q) xs ->
  py_max xs = Return m -> (m == 0)%Q ->
  (2 <= py_count xs m)%nat /\ Forall (fun x => (x == 0)%Q) xs.
Proof.
  intros Hlen Hpos Hmax Hz.
  destruct (py_max_upper xs m Hmax) as [Hup _].
  assert (Hall : Forall (fun x => (x == 0)%Q) xs).
  { rewrite Forall_forall in *. intros x Hx.
    apply Qle_antisym; [| now apply Hpos].
    rewrite <- Hz. now apply Hup. }
  split; [| exact Hall].
  rewrite py_count_all; [assumption |].
  rewrite Forall_forall in *. intros x Hx. rewrite Hz. now apply Hall.
Qed.

(** ** What the "Diagnose" button prints *)

Lemma for_each_prints (probs : list (string * Q)) (w : world) :
  for_each probs (fun '(condition, p) => emit (StWriteProb condition p)) w
  = (Return tt, printed w (map (fun cp => StWriteProb (fst cp) (snd cp)) probs)).
Proof.
  revert w. induction probs as [| [c p] probs IH]; intros w.
  - simpl. unfold ret. now rewrite printed_nil.
  - cbn [for_each]. erewrite run_bind by apply run_emit.
    rewrite IH, printed_printed. reflexivity.
Qed.

(** The run of [diagnose] on a non-empty selection, with the static table
    in place: the report, then at most one warning chosen by lines 205 to
    208. *)
Lemma diagnose_report (selected : list string) (w : world) :
  selected <> [] -> g_symptoms w = symptoms ->
  exists max_prob,
    py_max (values (scored selected symptoms)) = Return max_prob /\
    diagnose selected w
    = (Return tt,
       printed w
         (report_lines selected ++
          (if Nat.ltb 1 (py_count (values (scored selected symptoms)) max_prob)
           then [StWarning clash_msg]
           else if Qeq_bool max_prob 0 then [StWarning no_match_msg] else []))).
Proof.
  intros Hsel Htbl.
  destruct selected as [| s0 rest]; [congruence |].
  set (selected := s0 :: rest) in *.
  destruct (py_max (values (scored selected symptoms))) as [m | e] eqn:Hmax.
  2:{ rewrite values_scored in Hmax. discriminate Hmax. }
  exists m. split; [reflexivity |].
  unfold diagnose, selected. cbv beta iota. fold selected.
  unfold st_write, st_warning.
  erewrite run_bind by apply run_emit.
  erewrite run_bind by (unfold read_symptoms; reflexivity).
  cbn [g_symptoms printed]. rewrite Htbl.
  erewrite run_bind
    by (apply compute_probabilities_scored;
        [apply symptoms_keys_distinct | apply symptoms_lists_nonempty]).
  erewrite run_bind by (unfold lift; rewrite Hmax; reflexivity).
  erewrite run_bind by apply run_emit.
  erewrite run_bind by apply for_each_prints.
  rewrite !printed_printed.
  assert (Hlines :
    [StWrite ("Selected Symptoms: " ++ join ", " selected)%string]
      ++ [StWrite "Diagnosis Result:"]
      ++ map (fun cp => StWriteProb (fst cp) (snd cp)) (scored selected symptoms)
    = report_lines selected).
  { unfold report_lines, scored. rewrite map_map. reflexivity. }
  rewrite Hlines.
  destruct (Nat.ltb 1 (py_count (values (scored selected symptoms)) m)).
  - now rewrite run_emit, printed_printed.
  - destruct (Qeq_bool m 0).
    + now rewrite run_emit, printed_printed.
    + unfold ret. now rewrite app_nil_r.
Qed.



(** ** The checkbox page *)

Lemma fold_left_invariant {A B} (Inv : A -> Prop) (f : A -> B -> A)
    (l : list B) (a : A) :
  Inv a -> (forall a b, Inv a -> Inv (f a b)) -> Inv (fold_left f l a).
Proof.
  intros Ha Hf. revert a Ha. induction l as [| b l IH]; intros a Ha; simpl.
  - exact Ha.
  - apply IH. now apply Hf.
Qed.

(** Every checkbox stands for a symptom of the table and carries the state
    the user gave it. *)
Lemma symptom_selection_entries (tbl : list (string * list string))
    (checkbox : string -> bool) :
  Forall (fun entry =>
            snd entry = checkbox (fst entry) /\
            exists symptom_list,
              In symptom_list (values tbl) /\ In (fst entry) symptom_list)
         (symptom_selection tbl checkbox).
Proof.
  unfold symptom_selection.
  assert (Hgen : forall (lists seen : list (list string)) sel,
    Forall (fun entry =>
              snd entry = checkbox (fst entry) /\
              exists symptom_list,
                In symptom_list (seen ++ lists) /\ In (fst entry) symptom_list) sel ->
    Forall (fun entry =>
              snd entry = checkbox (fst entry) /\
              exists symptom_list,
                In symptom_list (seen ++ lists) /\ In (fst entry) symptom_list)
      (fold_left
         (fun sel symptom_list =>
            fold_left
              (fun sel symptom =>
                 if str_in symptom (keys sel) then sel
                 else sel ++ [(symptom, checkbox symptom)])
              symptom_list sel)
         lists sel)).
  { induction lists as [| l lists IH]; intros seen sel Hsel; [exact Hsel |].
    cbn [fold_left].
    replace (seen ++ l :: lists) with ((seen ++ [l]) ++ lists)
      by (rewrite <- app_assoc; reflexivity).
    apply IH.
    replace ((seen ++ [l]) ++ lists) with (seen ++ l :: lists)
      by (rewrite <- app_assoc; reflexivity).
    assert (Hin : forall pre post sel0,
      l = pre ++ post ->
      Forall (fun entry =>
                snd entry = checkbox (fst entry) /\
                exists symptom_list,
                  In symptom_list (seen ++ l :: lists) /\ In (fst entry) symptom_list)
             sel0 ->
      Forall (fun entry =>
                snd entry = checkbox (fst entry) /\
                exists symptom_list,
                  In symptom_list (seen ++ l :: lists) /\ In (fst entry) symptom_list)
        (fold_left
           (fun sel symptom =>
              if str_in symptom (keys sel) then sel
              else sel ++ [(symptom, checkbox symptom)])
           post sel0)).
    { intros pre post. revert pre.
      induction post as [| s post IHp]; intros pre sel0 El H0; [exact H0 |].
      cbn [fold_left]. apply (IHp (pre ++ [s])).
      - rewrite <- app_assoc. exact El.
      - destruct (str_in s (keys sel0)); [exact H0 |].
        apply Forall_app. split; [exact H0 |].
        constructor; [| constructor]. cbn [fst snd]. split; [reflexivity |].
        exists l. split.
        + apply in_or_app. right. now left.
        + rewrite El. apply in_or_app. right. now left. }
    apply (Hin [] l sel); [reflexivity | exact Hsel]. }
  apply (Hgen (values tbl) [] []). constructor.
Qed.

Lemma selected_symptoms_ticked (tbl : list (string * list string))
    (checkbox : string -> bool) (s : string) :
  In s (selected_symptoms (symptom_selection tbl checkbox)) ->
  checkbox s = true /\
  exists symptom_list, In symptom_list (values tbl) /\ In s symptom_list.
Proof.
  unfold selected_symptoms. intros H.
  apply in_map_iff in H. destruct H as [[k b] [Hk Hin]]. cbn [fst] in Hk. subst k.
  apply filter_In in Hin. destruct Hin as [Hin Hb]. cbn [snd] in Hb.
  pose proof (symptom_selection_entries tbl checkbox) as Hall.
  rewrite Forall_forall in Hall. destruct (Hall _ Hin) as [Hs Hex].
  cbn [fst snd] in *. split; [congruence | exact Hex].
Qed.

Lemma nothing_ticked_nothing_selected (tbl : list (string * list string))
    (checkbox : string -> bool) :
  (forall s, checkbox s = false) ->
  selected_symptoms (symptom_selection tbl checkbox) = [].
Proof.
  intros Hnone.
  destruct (selected_symptoms (symptom_selection tbl checkbox)) as [| s rest] eqn:E;
    [reflexivity |].
  assert (Hin : In s (selected_symptoms (symptom_selection tbl checkbox)))
    by (rewrite E; now left).
  apply selected_symptoms_ticked in Hin. destruct Hin as [Ht _].
  rewrite Hnone in Ht. discriminate Ht.
Qed.

Lemma match_count_positive (sel l : list string) (s : string) :
  In s sel -> In s l -> (0 < match_count sel l)%nat.
Proof.
  intros Hs Hl. unfold match_count.
  assert (Hin : In s (filter (fun symptom => str_in symptom l) sel)).
  { apply filter_In. split; [assumption | now apply str_in_In]. }
  destruct (filter (fun symptom => str_in symptom l) sel); [destruct Hin |].
  simpl. lia.
Qed.

Lemma percentage_positive (sel l : list string) (s : string) :
  In s sel -> In s l -> (0 < percentage sel l)%Q.
Proof.
  intros Hs Hl. unfold percentage.
  pose proof (match_count_positive sel l s Hs Hl) as Hc.
  assert (Hlen : (0 < length l)%nat) by (destruct l; [destruct Hl | simpl; lia]).
  apply Qmult_lt_0_compat; [| reflexivity].
  apply Qmult_lt_0_compat.
  - change 0%Q with (inject_Z 0). rewrite <- Zlt_Qlt. lia.
  - apply Qinv_lt_0_compat.
    change 0%Q with (inject_Z 0). rewrite <- Zlt_Qlt. lia.
Qed.

Lemma listed_selection_scores (sel l : list string) (s : string) :
  In s sel -> In l (values symptoms) -> In s l ->
  exists max_prob,
    py_max (values (scored sel symptoms)) = Return max_prob /\ (0 < max_prob)%Q.
Proof.
  intros Hin Hl Hsl.
  destruct (py_max (values (scored sel symptoms))) as [m | e] eqn:Hmax.
  2:{ rewrite values_scored in Hmax. discriminate Hmax. }
  exists m. split; [reflexivity |].
  destruct (py_max_upper _ _ Hmax) as [Hup _].
  rewrite Forall_forall in Hup.
  apply Qlt_le_trans with (percentage sel l).
  - now apply percentage_positive with s.
  - apply Hup. rewrite values_scored.
    unfold values in Hl. apply in_map_iff in Hl. destruct Hl as [entry [El Hentry]].
    apply in_map_iff. exists entry. split; [now rewrite El | exact Hentry].
Qed.

(** Through the checkbox page the maximum is never zero: whatever is
    ticked is listed under some condition, which then scores above zero. *)
Lemma page_selection_scores (checkbox : string -> bool) (s : string) :
  In s (selected_symptoms (symptom_selection symptoms checkbox)) ->
  exists max_prob,
    py_max (values (scored (selected_symptoms (symptom_selection symptoms checkbox))
                           symptoms)) = Return max_prob /\
    (0 < max_prob)%Q.
Proof.
  intros Hin.
  destruct (selected_symptoms_ticked _ _ _ Hin) as [_ [l [Hl Hsl]]].
  exact (listed_selection_scores _ l s Hin Hl Hsl).
Qed.

(** ** The symptom scorer: claims *)

(** C4.  For every non-empty selection without repetitions, the scorer
    gives each of the four conditions the percentage
    (number of the condition's listed symptoms present in the selection)
    / (number of symptoms listed for the condition) * 100, each condition on
    its own, and prints the percentage of every condition, followed by at
    most one warning. *)
Theorem diagnose_reports_every_percentage (selected : list string) (w : world) :
  selected <> [] -> NoDup selected -> g_symptoms w = symptoms ->
  compute_probabilities symptoms selected w
  = (Return (map (fun entry => (fst entry, spec_percentage selected (snd entry)))
                 symptoms), w) /\
  exists signal,
    diagnose selected w
    = (Return tt,
       printed w
         ([StWrite ("Selected Symptoms: " ++ join ", " selected)%string;
           StWrite "Diagnosis Result:"]
          ++ map (fun entry =>
                    StWriteProb (fst entry) (spec_percentage selected (snd entry)))
                 symptoms
          ++ signal)) /\
    (signal = [] \/ exists msg, signal = [StWarning msg]).
Proof.
  intros Hsel Hnd Htbl.
  assert (Hpct : forall entry, In entry symptoms ->
            percentage selected (snd entry) = spec_percentage selected (snd entry)).
  { intros entry Hin. apply percentage_spec; [assumption |].
    pose proof symptoms_lists_distinct as Hd. rewrite Forall_forall in Hd.
    now apply Hd. }
  split.
  - rewrite compute_probabilities_scored
      by (apply symptoms_keys_distinct || apply symptoms_lists_nonempty).
    unfold scored. f_equal. f_equal. apply map_ext_in.
    intros entry Hin. now rewrite Hpct.
  - destruct (diagnose_report selected w Hsel Htbl) as [m [_ Hrun]].
    eexists. split.
    + rewrite Hrun. unfold report_lines. rewrite <- app_assoc.
      do 3 f_equal. f_equal.
      apply map_ext_in. intros entry Hin. now rewrite Hpct.
    + destruct (Nat.ltb 1 _); [right; eauto |].
      destruct (Qeq_bool m 0); [right; eauto | now left].
Qed.

Lemma diagnose_reports_every_percentage_witness :
  exists signal,
    diagnose ["Headaches"; "Fatigue"] boot
    = (Return tt,
       printed boot
         ([StWrite "Selected Symptoms: Headaches, Fatigue";
           StWrite "Diagnosis Result:"]
          ++ map (fun entry =>
                    StWriteProb (fst entry)
                      (spec_percentage ["Headaches"; "Fatigue"] (snd entry)))
                 symptoms
          ++ signal)).
Proof.
  destruct (diagnose_reports_every_percentage ["Headaches"; "Fatigue"] boot)
    as [_ [signal [Hrun _]]].
  - discriminate.
  - repeat constructor; cbn [In]; intros H;
      repeat (destruct H as [H | H]; [discriminate H |]); exact H.
  - reflexivity.
  - exists signal. exact Hrun.
Defined.

(** C5.  Scoring exactly "Headaches" and "Seizures", in either order,
    gives Glioma and Meningioma the same, largest percentage (200/7), and
    the run ends with the clash warning ("consult a doctor"); no single
    condition is singled out.  The same holds when the two boxes are ticked
    on the page. *)
Theorem headaches_and_seizures_clash (selected : list string) :
  Permutation ["Headaches"; "Seizures"] selected ->
  compute_probabilities symptoms selected boot
  = (Return [("Glioma", 200 # 7); ("Meningioma", 200 # 7);
             ("No Tumor", 0); ("Pituitary Tumor", 100 # 7)]%Q, boot) /\
  py_max [200 # 7; 200 # 7; 0; 100 # 7]%Q = Return (200 # 7)%Q /\
  py_count [200 # 7; 200 # 7; 0; 100 # 7]%Q (200 # 7)%Q = 2%nat /\
  diagnose selected boot
  = (Return tt,
     printed boot
       [StWrite ("Selected Symptoms: " ++ join ", " selected)%string;
        StWrite "Diagnosis Result:";
        StWriteProb "Glioma" (200 # 7)%Q;
        StWriteProb "Meningioma" (200 # 7)%Q;
        StWriteProb "No Tumor" 0%Q;
        StWriteProb "Pituitary Tumor" (100 # 7)%Q;
        StWarning clash_msg]) /\
  diagnosis_test Demo.headaches_and_seizures boot
  = diagnose ["Headaches"; "Seizures"] boot.
Proof.
  intros Hperm. apply Permutation_length_2_inv in Hperm.
  destruct Hperm as [-> | ->]; repeat split; vm_compute; reflexivity.
Qed.

Lemma headaches_and_seizures_clash_witness :
  diagnose ["Seizures"; "Headaches"] boot
  = (Return tt,
     printed boot
       [StWrite "Selected Symptoms: Seizures, Headaches";
        StWrite "Diagnosis Result:";
        StWriteProb "Glioma" (200 # 7)%Q;
        StWriteProb "Meningioma" (200 # 7)%Q;
        StWriteProb "No Tumor" 0%Q;
        StWriteProb "Pituitary Tumor" (100 # 7)%Q;
        StWarning clash_msg]).
Proof.
  apply (headaches_and_seizures_clash ["Seizures"; "Headaches"]).
  apply perm_swap.
Defined.

(** C6.  With nothing selected the run prints the one warning "Please
    select at least one symptom." and nothing else: no percentage line is
    produced.  On the page this is the run with no box ticked. *)
Theorem empty_selection_rejected (w : world) :
  diagnose [] w = (Return tt, printed w [StWarning none_selected_msg]) /\
  forall checkbox,
    (forall s, checkbox s = false) ->
    diagnosis_test checkbox w
    = (Return tt, printed w [StWarning none_selected_msg]).
Proof.
  split; [reflexivity |].
  intros checkbox Hnone. unfold diagnosis_test.
  erewrite run_bind by (unfold read_symptoms; reflexivity).
  now rewrite nothing_ticked_nothing_selected.
Qed.

Lemma empty_selection_rejected_witness :
  diagnosis_test (fun _ => false) boot
  = (Return tt, printed boot [StWarning none_selected_msg]).
Proof.
  apply (empty_selection_rejected boot). intros s. reflexivity.
Defined.

Lemma for_fold_ext {A S} (xs : list A) (f g : S -> A -> M S) :
  (forall acc x w, f acc x w = g acc x w) ->
  forall acc w, for_fold xs f acc w = for_fold xs g acc w.
Proof.
  intros Hfg. induction xs as [| x xs IH]; intros acc w; [reflexivity |].
  cbn [for_fold]. unfold bind. rewrite Hfg.
  destruct (g acc x w) as [[acc' | e] w']; [apply IH | reflexivity].
Qed.

Lemma compute_probabilities_perm (tbl : list (string * list string))
    (sel sel' : list string) (w : world) :
  Permutation sel sel' ->
  compute_probabilities tbl sel w = compute_probabilities tbl sel' w.
Proof.
  intros Hperm. unfold compute_probabilities. apply for_fold_ext.
  intros acc [c l] w0. unfold bind. now rewrite (probability_perm sel sel').
Qed.

(** Scoring prints nothing and touches nothing. *)
Lemma compute_probabilities_silent (tbl : list (string * list string))
    (sel : list string) (w : world) :
  snd (compute_probabilities tbl sel w) = w.
Proof.
  unfold compute_probabilities.
  generalize (map (fun condition => (condition, 0%Q)) (keys tbl)) as acc.
  induction tbl as [| [c l] tbl IH]; intros acc; [reflexivity |].
  cbn [for_fold]. unfold bind at 1. unfold bind at 1. unfold lift, ret.
  destruct (probability sel l) as [p | e]; [apply IH | reflexivity].
Qed.

(** C7.  The scorer is a function of the selected set.  Reordering the
    selection leaves the dict of percentages unchanged; scoring neither
    prints nor changes the globals; and running the handler a second time
    on the world the first run left behind gives the same result and prints
    the same lines again, the table of symptoms being unchanged
    throughout. *)
Theorem scorer_deterministic (tbl : list (string * list string))
    (sel sel' : list string) (w : world) :
  Permutation sel sel' ->
  compute_probabilities tbl sel w = compute_probabilities tbl sel' w /\
  snd (compute_probabilities tbl sel w) = w /\
  (let first_run := diagnose sel w in
   let second_run := diagnose sel (snd first_run) in
   fst second_run = fst first_run /\
   g_symptoms (snd first_run) = g_symptoms w /\
   g_symptoms (snd second_run) = g_symptoms w /\
   exists evs,
     out (snd first_run) = out w ++ evs /\
     out (snd second_run) = out (snd first_run) ++ evs).
Proof.
  intros Hperm. split; [now apply compute_probabilities_perm |].
  split; [apply compute_probabilities_silent |].
  destruct (stable_run (diagnose sel) w (stable_diagnose sel)) as [r [evs Hrun]].
  destruct w as [tbl0 o]. cbn [g_symptoms out] in *.
  cbv zeta. rewrite (Hrun o). cbn [fst snd]. rewrite (Hrun (o ++ evs)).
  cbn [fst snd g_symptoms out].
  split; [reflexivity |]. split; [reflexivity |]. split; [reflexivity |].
  exists evs. split; reflexivity.
Qed.

Lemma scorer_deterministic_witness :
  compute_probabilities symptoms ["Fatigue"; "Headaches"; "Seizures"] boot
  = compute_probabilities symptoms ["Seizures"; "Fatigue"; "Headaches"] boot.
Proof.
  apply (scorer_deterministic symptoms
           ["Fatigue"; "Headaches"; "Seizures"]
           ["Seizures"; "Fatigue"; "Headaches"] boot).
  apply Permutation_sym.
  apply (Permutation_cons_app ["Fatigue"; "Headaches"] [] "Seizures").
  apply Permutation_refl.
Defined.


(** ** The classifier *)

(** The scan of [np.argmax], resumed after the prefix [pre] whose first
    largest element [best] sits at [best_i]. *)
Lemma argmax_scan (xs pre : list Q) (best : Q) (best_i : nat) :
  nth_error pre best_i = Some best ->
  Forall (fun x => (x <= best)%Q) pre ->
  (forall j y, (j < best_i)%nat -> nth_error pre j = Some y -> (y < best)%Q) ->
  nth_error (pre ++ xs) (argmax_from xs (length pre) best_i best)
  = Some (max_from xs best) /\
  Forall (fun x => (x <= max_from xs best)%Q) (pre ++ xs) /\
  (forall j y,
      (j < argmax_from xs (length pre) best_i best)%nat ->
      nth_error (pre ++ xs) j = Some y -> (y < max_from xs best)%Q).
Proof.
  revert pre best best_i.
  induction xs as [| y ys IH]; intros pre best best_i Hnth Hle Hfirst.
  - cbn [argmax_from max_from fold_left]. rewrite app_nil_r. auto.
  - assert (Hbi : (best_i < length pre)%nat)
      by (apply nth_error_Some; congruence).
    cbn [argmax_from]. unfold max_from. cbn [fold_left]. fold (max_from ys).
    replace (pre ++ y :: ys) with ((pre ++ [y]) ++ ys)
      by (rewrite <- app_assoc; reflexivity).
    replace (S (length pre)) with (length (pre ++ [y]))
      by (rewrite length_app; simpl; lia).
    destruct (Qlt_le_dec best y) as [Hlt | Hge].
    + apply IH.
      * rewrite nth_error_app2 by lia. now rewrite Nat.sub_diag.
      * apply Forall_app. split; [| constructor; [apply Qle_refl | constructor]].
        rewrite Forall_forall in *. intros x Hx.
        apply Qle_trans with best; [now apply Hle | now apply Qlt_le_weak].
      * intros j z Hj Hz. rewrite nth_error_app1 in Hz by exact Hj.
        apply Qle_lt_trans with best; [| exact Hlt].
        rewrite Forall_forall in Hle. apply Hle. eapply nth_error_In; eauto.
    + apply IH.
      * now rewrite nth_error_app1 by exact Hbi.
      * apply Forall_app. split; [exact Hle | constructor; [exact Hge | constructor]].
      * intros j z Hj Hz. rewrite nth_error_app1 in Hz by lia. eauto.
Qed.

(** [np.max] and [np.argmax] agree: the index returned is the first
    position of a largest element, which is the value returned. *)
Lemma np_argmax_max (v : list Q) :
  v <> [] ->
  exists i m,
    np_argmax v = Return i /\ np_max v = Return m /\
    nth_error v i = Some m /\
    Forall (fun x => (x <= m)%Q) v /\
    (forall j y, (j < i)%nat -> nth_error v j = Some y -> (y < m)%Q).
Proof.
  destruct v as [| x xs]; [congruence |]. intros _.
  exists (argmax_from xs 1 0 x), (max_from xs x).
  split; [reflexivity |]. split; [reflexivity |].
  apply (argmax_scan xs [x] x 0).
  - reflexivity.
  - constructor; [apply Qle_refl | constructor].
  - intros j y Hj. lia.
Qed.

Section ClassifierFacts.
Context {P : Pillow} {K : Services}.

Lemma predict_caught (image : Image) (e : exn) (w : world) :
  inference_raises image e ->
  predict image w
  = (Return (None, None), printed w [StError ("Error in prediction: " ++ e)%string]).
Proof.
  intros H. unfold predict, try_except, bind, lift, st_error.
  destruct H as [H | [predictions [Hp [H | [i [Hi H]]]]]].
  - rewrite H. reflexivity.
  - rewrite Hp, H. reflexivity.
  - rewrite Hp.
    destruct (concat predictions) as [| x xs] eqn:Ec; [discriminate Hi |].
    cbn [np_max np_argmax] in *. injection Hi as <-. rewrite H. reflexivity.
Qed.

(** C1.  When the model returns one probability vector [v] of length 4,
    [predict] returns a category and a confidence and prints nothing;
    the confidence is the largest element of [v]; the category is the
    entry of ["glioma"; "meningioma"; "no tumor"; "pituitary"] at the
    index of the first largest element of [v]. *)
Theorem predict_returns_argmax_category (image : Image) (v : list Q)
    (w : world) :
  model_predict (preprocess_image image) = Return [v] ->
  length v = 4%nat ->
  exists tumor_type confidence i,
    predict image w = (Return (Some tumor_type, Some confidence), w) /\
    nth_error v i = Some confidence /\
    Forall (fun x => (x <= confidence)%Q) v /\
    (forall j y, (j < i)%nat -> nth_error v j = Some y -> (y < confidence)%Q) /\
    nth_error categories i = Some tumor_type.
Proof.
  intros Hmodel Hlen.
  destruct (np_argmax_max v) as [i [m [Hi [Hm [Hnth [Hle Hfirst]]]]]].
  { destruct v; [discriminate Hlen | discriminate]. }
  assert (Hi4 : (i < length categories)%nat).
  { assert (i < length v)%nat by (apply nth_error_Some; congruence).
    unfold categories; simpl; lia. }
  destruct (nth_error categories i) as [tumor_type |] eqn:Hcat;
    [| apply nth_error_None in Hcat; lia].
  exists tumor_type, m, i. repeat split; try assumption.
  unfold predict, try_except, bind, lift, ret.
  rewrite Hmodel. cbn [concat]. rewrite app_nil_r.
  rewrite Hm, Hi. unfold list_index. rewrite Hcat. reflexivity.
Qed.

(** C8.  When the [try] block of [predict] raises, the error is printed
    with [st.error], [predict] returns [(None, None)], and the "Predict"
    handler does nothing further: no explanation, no lookup, no speech,
    whatever those collaborators would have done. *)
Theorem inference_failure_short_circuits (image : Image) (e : exn)
    (w : world) :
  inference_raises image e ->
  predict image w
  = (Return (None, None), printed w [StError ("Error in prediction: " ++ e)%string]) /\
  on_predict image w
  = (Return tt, printed w [StError ("Error in prediction: " ++ e)%string]).
Proof.
  intros H. split; [now apply predict_caught |].
  unfold on_predict. rewrite (run_bind _ _ _ _ _ (predict_caught image e w H)).
  reflexivity.
Qed.

(** C9.  [is_valid_mri] always returns a boolean and never raises.  It
    returns [True] when the DICOM read succeeds with Modality "MR";
    when the DICOM attempt raises it returns [True] if [Image.open]
    succeeds and otherwise [False] after printing the decode error as a
    warning; a dataset with another Modality gives [False]. *)
Theorem is_valid_mri_never_raises (file : UploadedFile) (w : world) :
  (exists b evs, is_valid_mri file w = (Return b, printed w evs)) /\
  (forall ds,
      dcmread file true = Return ds -> Modality ds = Return "MR" ->
      is_valid_mri file w = (Return true, w)) /\
  (forall image,
      dicom_attempt_raises file -> Image_open file = Return image ->
      is_valid_mri file w = (Return true, w)) /\
  (forall e,
      dicom_attempt_raises file -> Image_open file = Raise e ->
      is_valid_mri file w
      = (Return false,
         printed w [StWarning ("Image validation failed: " ++ e)%string])) /\
  (forall ds modality,
      dcmread file true = Return ds -> Modality ds = Return modality ->
      modality <> "MR" ->
      is_valid_mri file w = (Return false, w)).
Proof.
  unfold dicom_attempt_raises.
  unfold is_valid_mri, try_except, bind, lift, ret, st_warning.
  split; [| split; [| split; [| split]]].
  - destruct (dcmread file true) as [ds | e1].
    + destruct (Modality ds) as [m | e2].
      * destruct (String.eqb m "MR"); exists true + exists false;
          exists []; now rewrite printed_nil.
      * destruct (Image_open file) as [img | e3].
        -- exists true, []. now rewrite printed_nil.
        -- eexists false, [_]. reflexivity.
    + destruct (Image_open file) as [img | e3].
      * exists true, []. now rewrite printed_nil.
      * eexists false, [_]. reflexivity.
  - intros ds Hd Hm. rewrite Hd, Hm. reflexivity.
  - intros image [[e1 Hd] | [ds [e2 [Hd Hm]]]] Ho.
    + rewrite Hd, Ho. reflexivity.
    + rewrite Hd, Hm, Ho. reflexivity.
  - intros e [[e1 Hd] | [ds [e2 [Hd Hm]]]] Ho.
    + rewrite Hd, Ho. reflexivity.
    + rewrite Hd, Hm, Ho. reflexivity.
  - intros ds m Hd Hm Hne. rewrite Hd, Hm.
    apply String.eqb_neq in Hne. rewrite Hne. reflexivity.
Qed.

End ClassifierFacts.

Lemma predict_returns_argmax_category_witness :
  exists tumor_type confidence i,
    @predict Demo.pillow (Demo.services Demo.good_model) Demo.grey2 boot
    = (Return (Some tumor_type, Some confidence), boot) /\
    nth_error [1 # 10; 7 # 10; 1 # 10; 1 # 10]%Q i = Some confidence /\
    nth_error categories i = Some tumor_type.
Proof.
  destruct (@predict_returns_argmax_category
              Demo.pillow (Demo.services Demo.good_model) Demo.grey2
              [1 # 10; 7 # 10; 1 # 10; 1 # 10]%Q boot)
    as [t [c [i [H1 [H2 [_ [_ H3]]]]]]].
  - reflexivity.
  - reflexivity.
  - exists t, c, i. auto.
Defined.

Lemma inference_failure_short_circuits_witness :
  @on_predict Demo.pillow (Demo.services Demo.failing_model) Demo.grey2 boot
  = (Return tt,
     printed boot [StError "Error in prediction: Graph execution error"]).
Proof.
  apply (@inference_failure_short_circuits
           Demo.pillow (Demo.services Demo.failing_model) Demo.grey2
           "Graph execution error" boot).
  left. reflexivity.
Defined.

Lemma is_valid_mri_never_raises_witness :
  @is_valid_mri Demo.pillow (Demo.services Demo.good_model)
    [Byte.x4d; Byte.x52] boot = (Return true, boot) /\
  @is_valid_mri Demo.pillow (Demo.services Demo.good_model)
    [Byte.x89; Byte.x50] boot = (Return true, boot) /\
  @is_valid_mri Demo.pillow (Demo.services Demo.good_model)
    [] boot
  = (Return false,
     printed boot [StWarning "Image validation failed: cannot identify image file"]) /\
  @is_valid_mri Demo.pillow (Demo.services Demo.good_model)
    [Byte.x43; Byte.x54] boot = (Return false, boot).
Proof.
  split; [| split; [| split]].
  - apply (@is_valid_mri_never_raises
             Demo.pillow (Demo.services Demo.good_model) [Byte.x4d; Byte.x52] boot)
      with (ds := [Byte.x4d; Byte.x52]); reflexivity.
  - apply (@is_valid_mri_never_raises
             Demo.pillow (Demo.services Demo.good_model) [Byte.x89; Byte.x50] boot)
      with (image := Demo.rgb4); [| reflexivity].
    right. exists [Byte.x89; Byte.x50]. eexists. split; reflexivity.
  - apply (@is_valid_mri_never_raises
             Demo.pillow (Demo.services Demo.good_model) [] boot);
      [| reflexivity].
    left. eexists. reflexivity.
  - apply (@is_valid_mri_never_raises
             Demo.pillow (Demo.services Demo.good_model) [Byte.x43; Byte.x54] boot)
      with (ds := [Byte.x43; Byte.x54]) (modality := "CT");
      [reflexivity | reflexivity | discriminate].
Defined.

(** ** The preprocessor and the explainer's input *)

Lemma scaled_sample_in_unit (v : Z) :
  (0 <= v <= 255)%Z -> (0 <= inject_Z v / 255 <= 1)%Q.
Proof.
  intros [H0 H255]. split.
  - apply Qle_shift_div_l; [reflexivity |].
    rewrite Qmult_0_l. change 0%Q with (inject_Z 0). now rewrite <- Zle_Qle.
  - apply Qle_shift_div_r; [reflexivity |].
    rewrite Qmult_1_l. change 255%Q with (inject_Z 255). now rewrite <- Zle_Qle.
Qed.






Lemma rgb_grid_scaled_shape (g : grid) :
  rgb_grid 150 150 g -> has_shape4 1 150 150 3 (expand_dims0 (np_divide_255 g)).
Proof.
  intros [Hrows Hall]. unfold has_shape4, expand_dims0, np_divide_255.
  split; [reflexivity |]. constructor; [| constructor].
  split; [now rewrite length_map |].
  apply Forall_map. eapply Forall_impl; [| exact Hall].
  intros row [Hcols Hrow]. split; [now rewrite length_map |].
  apply Forall_map. eapply Forall_impl; [| exact Hrow].
  intros px [Hbands _]. now rewrite length_map.
Qed.

Lemma rgb_grid_scaled_range (w h : nat) (g : grid) :
  rgb_grid w h g -> all_in_unit (expand_dims0 (np_divide_255 g)).
Proof.
  intros [_ Hall]. unfold all_in_unit, expand_dims0, np_divide_255.
  constructor; [| constructor].
  apply Forall_map. eapply Forall_impl; [| exact Hall].
  intros row [_ Hrow].
  apply Forall_map. eapply Forall_impl; [| exact Hrow].
  intros px [_ Hpx].
  apply Forall_map. eapply Forall_impl; [| exact Hpx].
  intros v Hv. now apply scaled_sample_in_unit.
Qed.

Section PreprocessorFacts.
Context {P : Pillow} (HP : PillowSpec P).

Lemma force_rgb_mode (image : Image) : mode (force_rgb image) = "RGB".
Proof.
  unfold force_rgb.
  destruct (String.eqb_spec (mode image) "RGB") as [E | _]; cbn [negb].
  - exact E.
  - apply (convert_mode P HP).
Qed.

Lemma force_rgb_keeps_rgb (image : Image) :
  mode image = "RGB" -> force_rgb image = image.
Proof.
  intros E. unfold force_rgb. rewrite E. reflexivity.
Qed.

Lemma resized_rgb_grid (image : Image) :
  mode image = "RGB" -> rgb_grid 150 150 (np_array (resize image (150, 150)%nat)).
Proof.
  intros E.
  pose proof (array_rgb P HP (resize image (150, 150)%nat)) as H.
  rewrite (resize_mode P HP), (resize_size P HP) in H. exact (H E).
Qed.

(** C3.  For every image, of any mode and size, [preprocess_image]
    returns a regular array of shape 1 x 150 x 150 x 3 with every element
    between 0 and 1.  Its one entry is the array of the image, converted to
    RGB unless it is RGB already and then resized to 150 x 150, with every
    integer sample (from 0 to 255) divided by 255. *)
Theorem preprocess_image_shape_and_range (image : Image) :
  has_shape4 1 150 150 3 (preprocess_image image) /\
  all_in_unit (preprocess_image image) /\
  mode (force_rgb image) = "RGB" /\
  size (resize (force_rgb image) (150, 150)%nat) = (150, 150)%nat /\
  preprocess_image image
  = expand_dims0
      (np_divide_255 (np_array (resize (force_rgb image) (150, 150)%nat))) /\
  preprocess_image image
  = [map (map (map (fun v => (inject_Z v / 255)%Q)))
         (np_array (resize (force_rgb image) (150, 150)%nat))] /\
  rgb_grid 150 150 (np_array (resize (force_rgb image) (150, 150)%nat)) /\
  (mode image = "RGB" -> force_rgb image = image) /\
  (mode image <> "RGB" -> force_rgb image = convert image "RGB").
Proof.
  pose proof (resized_rgb_grid (force_rgb image) (force_rgb_mode image)) as Hg.
  unfold preprocess_image.
  split; [now apply rgb_grid_scaled_shape |].
  split; [now apply (rgb_grid_scaled_range 150 150) |].
  split; [apply force_rgb_mode |].
  split; [apply (resize_size P HP) |].
  split; [reflexivity |].
  split; [reflexivity |].
  split; [exact Hg |].
  split.
  - apply force_rgb_keeps_rgb.
  - intros Hne. unfold force_rgb.
    apply String.eqb_neq in Hne. now rewrite Hne.
Qed.


End PreprocessorFacts.

(** The demonstration instance meets the Pillow assumptions. *)
Lemma demo_pillow_spec : PillowSpec Demo.pillow.
Proof.
  constructor.
  - reflexivity.
  - intros im [w h]. unfold resize, mode; cbn. unfold Demo.r_resize.
    destruct (Demo.r_size im). reflexivity.
  - intros im [w h]. unfold resize, size; cbn. unfold Demo.r_resize.
    destruct (Demo.r_size im). reflexivity.
  - intros im E. unfold mode, size, np_array in *; cbn in *.
    unfold rgb_grid, Demo.r_array. rewrite E.
    split; [now rewrite length_map, length_seq |].
    apply Forall_map, Forall_forall. intros r _.
    split; [now rewrite length_map, length_seq |].
    apply Forall_map, Forall_forall. intros c _.
    split; [now rewrite length_map, length_seq |].
    apply Forall_map, Forall_forall. intros k _.
    unfold Demo.clamp8. lia.
Qed.

Lemma preprocess_image_shape_and_range_witness :
  has_shape4 1 150 150 3 (@preprocess_image Demo.pillow Demo.grey2) /\
  all_in_unit (@preprocess_image Demo.pillow Demo.grey2) /\
  @preprocess_image Demo.pillow Demo.grey2
  = [map (map (map (fun v => (inject_Z v / 255)%Q)))
         (Demo.r_array
            (Demo.r_resize (Demo.r_convert Demo.grey2 "RGB") (150, 150)%nat))].
Proof.
  destruct (@preprocess_image_shape_and_range
              Demo.pillow demo_pillow_spec Demo.grey2)
    as [H1 [H2 [_ [_ [_ [H3 [_ [_ H4]]]]]]]].
  split; [exact H1 |]. split; [exact H2 |].
  rewrite H3. rewrite H4 by discriminate. reflexivity.
Defined.

(** ** Sanity checks on the demonstration instance *)

(** With a model that answers, the handler goes through every stage:
    prediction, explanation, lookup and speech. *)
Example on_predict_runs_every_stage :
  exists shown,
    out (snd (@on_predict Demo.pillow (Demo.services Demo.good_model)
                Demo.grey2 boot))
    = [StWrite "Prediction: meningioma";
       StSubheader "OUTPUT of the SCAN :";
       StPyplot shown;
       StWrite "Tumor Information: meningioma";
       EngineSay "meningioma"].
Proof. eexists. vm_compute. reflexivity. Qed.



(** The percentages are not normalised across conditions: for "Headaches"
    and "Seizures" they add up to 500/7, not 100. *)
Example percentages_need_not_sum_to_100 :
  fold_right Qplus 0%Q
    (values (scored ["Headaches"; "Seizures"] symptoms)) == (500 # 7)%Q.
Proof. vm_compute. reflexivity. Qed.

(** * Further properties of the script *)

(** ** The classifier wrapper *)

(** The first position of a largest element is unique. *)
Lemma first_max_unique (v : list Q) (i i' : nat) (m m' : Q) :
  nth_error v i = Some m -> Forall (fun x => (x <= m)%Q) v ->
  (forall j y, (j < i)%nat -> nth_error v j = Some y -> (y < m)%Q) ->
  nth_error v i' = Some m' -> Forall (fun x => (x <= m')%Q) v ->
  (forall j y, (j < i')%nat -> nth_error v j = Some y -> (y < m')%Q) ->
  i = i' /\ m = m'.
Proof.
  intros Hi Hle Hfirst Hi' Hle' Hfirst'.
  assert (E : i = i').
  { destruct (Nat.lt_trichotomy i i') as [Hlt | [E | Hgt]]; [| exact E |].
    - exfalso. pose proof (Hfirst' i m Hlt Hi) as H.
      rewrite Forall_forall in Hle.
      pose proof (Hle m' (nth_error_In _ _ Hi')) as H'.
      exact (Qlt_not_le _ _ H H').
    - exfalso. pose proof (Hfirst i' m' Hgt Hi') as H.
      rewrite Forall_forall in Hle'.
      pose proof (Hle' m (nth_error_In _ _ Hi)) as H'.
      exact (Qlt_not_le _ _ H H'). }
  split; [exact E |]. subst i'. congruence.
Qed.

Section ClassifierMore.
Context {P : Pillow} {K : Services}.

Lemma predict_cases (image : Image) (w : world) :
  (exists tumor_type confidence predictions,
      predict image w = (Return (Some tumor_type, Some confidence), w) /\
      In tumor_type categories /\
      model_predict (preprocess_image image) = Return predictions /\
      In confidence (concat predictions)) \/
  (exists e,
      inference_raises image e /\
      predict image w
      = (Return (None, None),
         printed w [StError ("Error in prediction: " ++ e)%string])).
Proof.
  destruct (model_predict (preprocess_image image)) as [predictions | e] eqn:Hm.
  2:{ right. exists e. split; [now left |]. apply predict_caught. now left. }
  destruct (concat predictions) as [| x xs] eqn:Hc.
  { right. eexists. split; [right; exists predictions; split; [exact Hm |] |].
    - left. rewrite Hc. reflexivity.
    - apply predict_caught. right. exists predictions. split; [exact Hm |].
      left. rewrite Hc. reflexivity. }
  destruct (np_argmax_max (x :: xs)) as [i [m [Hi [Hmax [Hnth _]]]]];
    [discriminate |].
  destruct (nth_error categories i) as [c |] eqn:Hcat.
  - left. exists c, m, predictions. split; [| split; [| split]].
    + unfold predict, try_except, bind, lift, ret.
      rewrite Hm, Hc, Hmax, Hi. unfold list_index. rewrite Hcat. reflexivity.
    + eapply nth_error_In; eauto.
    + reflexivity.
    + rewrite Hc. eapply nth_error_In; eauto.
  - right. exists "list index out of range".
    assert (Hr : inference_raises image "list index out of range").
    { right. exists predictions. split; [exact Hm |]. right. exists i.
      rewrite Hc. split; [exact Hi |]. unfold list_index. now rewrite Hcat. }
    split; [exact Hr | now apply predict_caught].
Qed.

(** Line 100 aside, [predict] is its [try] statement. *)
Lemma predict_runs_try_block (image : Image) (w : world) :
  predict image w = predict_try (preprocess_image image) w.
Proof. reflexivity. Qed.

(** Whatever tensor line 100 produced, the [try] statement of [predict]
    lets no exception out and has two outcomes only: a category of the
    fixed list together with an element of the model's output, nothing
    being printed; or [(None, None)] after exactly one [st.error] carrying
    the message of what was raised by [model.predict], by [np.max] or by the
    category lookup. *)
Theorem predict_try_outcomes (preprocessed_image : tensor4) (w : world) :
  (exists tumor_type confidence predictions,
      predict_try preprocessed_image w
      = (Return (Some tumor_type, Some confidence), w) /\
      In tumor_type categories /\
      model_predict preprocessed_image = Return predictions /\
      In confidence (concat predictions)) \/
  (exists e,
      predict_try preprocessed_image w
      = (Return (None, None),
         printed w [StError ("Error in prediction: " ++ e)%string]) /\
      (model_predict preprocessed_image = Raise e \/
       exists predictions,
         model_predict preprocessed_image = Return predictions /\
         (np_max (concat predictions) = Raise e \/
          exists i,
            np_argmax (concat predictions) = Return i /\
            list_index categories i = Raise e))).
Proof.
  unfold predict_try, try_except, bind, lift, ret, st_error.
  destruct (model_predict preprocessed_image) as [predictions | e] eqn:Hm.
  2:{ right. exists e. split; [reflexivity | now left]. }
  destruct (concat predictions) as [| x xs] eqn:Hc.
  { right. eexists. split; [reflexivity |].
    right. exists predictions. split; [reflexivity |]. left.
    rewrite Hc. reflexivity. }
  destruct (np_argmax_max (x :: xs)) as [i [m [Hi [Hmax [Hnth _]]]]];
    [discriminate |].
  rewrite Hmax, Hi. unfold list_index.
  destruct (nth_error categories i) as [c |] eqn:Hcat.
  - left. exists c, m, predictions. split; [reflexivity |].
    split; [eapply nth_error_In; eauto |]. split; [reflexivity |].
    rewrite Hc. eapply nth_error_In; eauto.
  - right. eexists. split; [reflexivity |].
    right. exists predictions. split; [reflexivity |]. right. exists i.
    rewrite Hc. split; [exact Hi |]. now rewrite Hcat.
Qed.

(** [predict] does not look at the shape of the model's output: whatever
    the number of rows and columns, if the first largest element of the
    flattened output sits at position [i], the result is the [i]-th category
    when [i] is below four, and otherwise the caught error "list index out
    of range". *)
Theorem predict_ignores_output_shape (image : Image)
    (predictions : list (list Q)) (i : nat) (m : Q) (w : world) :
  model_predict (preprocess_image image) = Return predictions ->
  nth_error (concat predictions) i = Some m ->
  Forall (fun x => (x <= m)%Q) (concat predictions) ->
  (forall j y, (j < i)%nat -> nth_error (concat predictions) j = Some y -> (y < m)%Q) ->
  (forall tumor_type,
      nth_error categories i = Some tumor_type ->
      predict image w = (Return (Some tumor_type, Some m), w)) /\
  ((4 <= i)%nat ->
   predict image w
   = (Return (None, None),
      printed w [StError "Error in prediction: list index out of range"])).
Proof.
  intros Hm Hnth Hle Hfirst.
  assert (Hne : concat predictions <> []).
  { intros E. rewrite E in Hnth. destruct i; discriminate Hnth. }
  destruct (np_argmax_max (concat predictions) Hne)
    as [i' [m' [Hi [Hmax [Hnth' [Hle' Hfirst']]]]]].
  destruct (first_max_unique _ _ _ _ _ Hnth Hle Hfirst Hnth' Hle' Hfirst')
    as [<- <-].
  split.
  - intros c Hcat. unfold predict, try_except, bind, lift, ret.
    rewrite Hm, Hmax, Hi. unfold list_index. rewrite Hcat. reflexivity.
  - intros Hge.
    apply (predict_caught image "list index out of range" w).
    right. exists predictions. split; [exact Hm |]. right. exists i.
    split; [exact Hi |]. unfold list_index.
    destruct (nth_error categories i) eqn:Hcat; [| reflexivity].
    assert (i < length categories)%nat by (apply nth_error_Some; congruence).
    unfold categories in *; simpl in *; lia.
Qed.

Lemma predict_success_category (image : Image) (w w' : world)
    (tumor_type : string) (confidence : Q) :
  predict image w = (Return (Some tumor_type, Some confidence), w') ->
  In tumor_type categories /\ w' = w.
Proof.
  intros H. destruct (predict_cases image w)
    as [[c [q [ps [Hp [Hin _]]]]] | [e [_ Hp]]]; rewrite Hp in H.
  - injection H as -> -> ->. split; [exact Hin | reflexivity].
  - discriminate H.
Qed.

Lemma categories_truthy (tumor_type : string) :
  In tumor_type categories -> truthy (Some tumor_type) = true.
Proof.
  unfold categories. cbn [In].
  intros [<- | [<- | [<- | [<- | []]]]]; reflexivity.
Qed.

(** What [explain_prediction] prints. *)
Lemma explain_prediction_run (image : Image) (w : world) :
  exists evs,
    explain_prediction image w = (Return tt, printed w evs) /\
    Forall (fun ev =>
              match ev with
              | StSubheader _ | StPyplot _ | StError _ => True
              | _ => False
              end) evs /\
    (forall e,
        explain_instance (explain_input image) model_predict 1 0 1000 = Raise e ->
        evs = [explanation_error e]).
Proof.
  unfold explain_prediction, try_except, bind, lift, ret, st_error, explanation_error.
  destruct (explain_instance (explain_input image) model_predict 1 0 1000)
    as [ex | e].
  2:{ eexists. split; [reflexivity |]. split; [repeat constructor |].
      intros e' H. now injection H as ->. }
  rewrite run_emit. unfold list_index.
  destruct (top_labels ex) as [| label rest]; cbn [nth_error].
  { eexists. split; [rewrite run_emit, printed_printed; reflexivity |].
    split; [repeat constructor | discriminate]. }
  destruct (get_image_and_mask ex label true 5 false) as [[temp mask] | e].
  - eexists. split; [rewrite run_emit, printed_printed; reflexivity |].
    split; [repeat constructor | discriminate].
  - eexists. split; [rewrite run_emit, printed_printed; reflexivity |].
    split; [repeat constructor | discriminate].
Qed.

(** [explain_prediction] never raises.  A failing explainer leaves one
    error line; once the explainer has answered, the sub-header is printed,
    and then either the overlay or the error of reading it. *)
Theorem explain_prediction_never_raises (image : Image) (w : world) :
  (forall e,
      explain_instance (explain_input image) model_predict 1 0 1000 = Raise e ->
      explain_prediction image w = (Return tt, printed w [explanation_error e])) /\
  (forall ex,
      explain_instance (explain_input image) model_predict 1 0 1000 = Return ex ->
      (top_labels ex = [] ->
       explain_prediction image w
       = (Return tt,
          printed w [StSubheader "OUTPUT of the SCAN :";
                     explanation_error "list index out of range"])) /\
      (forall label rest e,
          top_labels ex = label :: rest ->
          get_image_and_mask ex label true 5 false = Raise e ->
          explain_prediction image w
          = (Return tt,
             printed w [StSubheader "OUTPUT of the SCAN :"; explanation_error e])) /\
      (forall label rest temp mask,
          top_labels ex = label :: rest ->
          get_image_and_mask ex label true 5 false = Return (temp, mask) ->
          explain_prediction image w
          = (Return tt,
             printed w [StSubheader "OUTPUT of the SCAN :"; StPyplot temp]))).
Proof.
  unfold explain_prediction, try_except, bind, lift, ret, st_error,
    explanation_error, list_index.
  split.
  - intros e H. rewrite H. reflexivity.
  - intros ex H. rewrite H. rewrite run_emit. split; [| split].
    + intros Hl. rewrite Hl. cbn [nth_error].
      now rewrite run_emit, printed_printed.
    + intros label rest e Hl Hg. rewrite Hl. cbn [nth_error]. rewrite Hg.
      now rewrite run_emit, printed_printed.
    + intros label rest temp mask Hl Hg. rewrite Hl. cbn [nth_error]. rewrite Hg.
      now rewrite run_emit, printed_printed.
Qed.

(** [speak_text] never raises: the text is spoken, or the engine's error is
    printed and nothing is spoken. *)
Theorem speak_text_never_raises (text : string) (w : world) :
  (engine_say_and_wait text = Return tt ->
   speak_text text w = (Return tt, printed w [EngineSay text])) /\
  (forall e,
      engine_say_and_wait text = Raise e ->
      speak_text text w
      = (Return tt, printed w [StError ("Error with TTS: " ++ e)%string])).
Proof.
  unfold speak_text, try_except, bind, lift, st_error.
  split.
  - intros H. rewrite H. reflexivity.
  - intros e H. rewrite H. reflexivity.
Qed.

End ClassifierMore.

(** ** The "Predict" handler *)

Section HandlerMore.
Context {P : Pillow} {K : Services}.

Lemma get_tumor_info_text (tumor_type info : string) (w : world) :
  lookup_text tumor_type (wikipedia_summary tumor_type 2) info ->
  get_tumor_info tumor_type w = (Return info, w).
Proof.
  unfold lookup_text, get_tumor_info.
  intros [H | [[H ->] | [H ->]]]; rewrite H; reflexivity.
Qed.

Lemma explain_prediction_events (image : Image) (w : world) :
  exists evs,
    explain_prediction image w = (Return tt, printed w evs) /\
    Forall explanation_event evs /\
    (forall e,
        explain_instance (explain_input image) model_predict 1 0 1000 = Raise e ->
        evs = [explanation_error e]).
Proof. exact (explain_prediction_run image w). Qed.

(** The handler after a successful prediction, up to the lookup. *)
Lemma on_predict_after_success (image : Image) (w : world)
    (tumor_type : string) (confidence : Q) :
  predict image w = (Return (Some tumor_type, Some confidence), w) ->
  exists evs,
    Forall explanation_event evs /\
    (forall e,
        explain_instance (explain_input image) model_predict 1 0 1000 = Raise e ->
        evs = [explanation_error e]) /\
    on_predict image w
    = (tumor_info <- get_tumor_info tumor_type ;;
       st_write ("Tumor Information: " ++ tumor_info)%string ;;
       speak_text tumor_info)
        (printed w (StWrite ("Prediction: " ++ tumor_type)%string :: evs)).
Proof.
  intros Hp.
  destruct (predict_success_category _ _ _ _ _ Hp) as [Hin _].
  destruct (explain_prediction_events image
              (printed w [StWrite ("Prediction: " ++ tumor_type)%string]))
    as [evs [Hrun [Hshape Hfail]]].
  exists evs. split; [exact Hshape |]. split; [exact Hfail |].
  unfold on_predict. rewrite (run_bind _ _ _ _ _ Hp).
  rewrite (categories_truthy _ Hin). unfold st_write at 1.
  erewrite run_bind by apply run_emit.
  rewrite (run_bind _ _ _ _ _ Hrun). rewrite printed_printed. reflexivity.
Qed.

(** After a successful prediction the handler always reaches the lookup
    and the speech, whatever the explainer did: it prints the prediction,
    the lines of the explanation stage (a single error line if the explainer
    failed), then the looked-up text or the fallback text, and speaks that
    text; a failure of the speech engine is printed, not raised. *)
Theorem on_predict_success_path (image : Image) (w : world)
    (tumor_type info : string) (confidence : Q) :
  predict image w = (Return (Some tumor_type, Some confidence), w) ->
  lookup_text tumor_type (wikipedia_summary tumor_type 2) info ->
  exists evs,
    Forall explanation_event evs /\
    (forall e,
        explain_instance (explain_input image) model_predict 1 0 1000 = Raise e ->
        evs = [explanation_error e]) /\
    (engine_say_and_wait info = Return tt ->
     on_predict image w
     = (Return tt,
        printed w
          (StWrite ("Prediction: " ++ tumor_type)%string :: evs
           ++ [StWrite ("Tumor Information: " ++ info)%string;
               EngineSay info]))) /\
    (forall e,
        engine_say_and_wait info = Raise e ->
        on_predict image w
        = (Return tt,
           printed w
             (StWrite ("Prediction: " ++ tumor_type)%string :: evs
              ++ [StWrite ("Tumor Information: " ++ info)%string;
                  StError ("Error with TTS: " ++ e)%string]))).
Proof.
  intros Hp Hinfo.
  destruct (on_predict_after_success image w tumor_type confidence Hp)
    as [evs [Hshape [Hfail Hrun]]].
  exists evs. split; [exact Hshape |]. split; [exact Hfail |].
  rewrite Hrun.
  rewrite (run_bind _ _ _ _ _ (get_tumor_info_text _ _ _ Hinfo)).
  unfold st_write. erewrite run_bind by apply run_emit.
  rewrite printed_printed. unfold speak_text, try_except, bind, lift, st_error.
  split.
  - intros He. rewrite He. rewrite run_emit, printed_printed.
    cbn [app]. now rewrite <- app_assoc.
  - intros e He. rewrite He. rewrite run_emit, printed_printed.
    cbn [app]. now rewrite <- app_assoc.
Qed.

(** A lookup error other than "ambiguous title" and "page not found" is
    not caught: the handler raises it after the prediction and the
    explanation lines have been printed, and nothing is spoken. *)
Theorem on_predict_lookup_error_propagates (image : Image) (w : world)
    (tumor_type : string) (confidence : Q) (e : exn) :
  predict image w = (Return (Some tumor_type, Some confidence), w) ->
  wikipedia_summary tumor_type 2 = OtherWikiError e ->
  exists evs,
    Forall explanation_event evs /\
    on_predict image w
    = (Raise e,
       printed w (StWrite ("Prediction: " ++ tumor_type)%string :: evs)).
Proof.
  intros Hp Hw.
  destruct (on_predict_after_success image w tumor_type confidence Hp)
    as [evs [Hshape [_ Hrun]]].
  exists evs. split; [exact Hshape |].
  rewrite Hrun. unfold bind, get_tumor_info. rewrite Hw. reflexivity.
Qed.

(** Once line 100 has produced the tensor, the only exception the handler
    lets out is the lookup's: if [wikipedia.summary] answers or fails with
    one of the two caught errors for each of the four categories, the
    handler returns normally, whatever the model, the explainer and the
    speech engine do. *)
Theorem on_predict_never_raises (image : Image) (w : world) :
  (forall tumor_type e,
      In tumor_type categories ->
      wikipedia_summary tumor_type 2 <> OtherWikiError e) ->
  exists evs, on_predict image w = (Return tt, printed w evs).
Proof.
  intros Hwiki.
  destruct (predict_cases image w)
    as [[c [q [ps [Hp [Hin _]]]]] | [e [_ Hp]]].
  - assert (Hinfo : exists info, lookup_text c (wikipedia_summary c 2) info).
    { unfold lookup_text.
      destruct (wikipedia_summary c 2) as [t | | | e] eqn:Hw.
      - exists t. now left.
      - eexists. right. left. split; reflexivity.
      - eexists. right. right. split; reflexivity.
      - exfalso. exact (Hwiki c e Hin Hw). }
    destruct Hinfo as [info Hinfo].
    destruct (on_predict_after_success image w c q Hp) as [evs [_ [_ Hrun]]].
    rewrite Hrun.
    rewrite (run_bind _ _ _ _ _ (get_tumor_info_text _ _ _ Hinfo)).
    unfold st_write. erewrite run_bind by apply run_emit.
    rewrite printed_printed. unfold speak_text, try_except, bind, lift, st_error.
    destruct (engine_say_and_wait info) as [[] | e];
      rewrite run_emit, printed_printed; eexists; reflexivity.
  - eexists. unfold on_predict. rewrite (run_bind _ _ _ _ _ Hp). reflexivity.
Qed.

(** ** The validator and the upload page *)

(** [is_valid_mri] accepts exactly the files whose DICOM read gives
    Modality "MR" and the files whose DICOM attempt raises while
    [Image.open] succeeds; an accepted file prints nothing. *)
Theorem is_valid_mri_accepts_iff (file : UploadedFile) (w : world) :
  (fst (is_valid_mri file w) = Return true <->
   (exists ds, dcmread file true = Return ds /\ Modality ds = Return "MR") \/
   (dicom_attempt_raises file /\ exists image, Image_open file = Return image)) /\
  (fst (is_valid_mri file w) = Return true -> snd (is_valid_mri file w) = w).
Proof.
  unfold dicom_attempt_raises.
  unfold is_valid_mri, try_except, bind, lift, ret, st_warning.
  destruct (dcmread file true) as [ds | e1] eqn:Hd.
  - destruct (Modality ds) as [m | e2] eqn:Hm.
    + destruct (String.eqb_spec m "MR") as [-> | Hne]; cbn [fst snd].
      * split; [| reflexivity]. split; [| reflexivity].
        intros _. left. exists ds. split; [reflexivity | exact Hm].
      * split; [| discriminate]. split; [discriminate |].
        intros [[ds' [Hd' Hm']] | [[[e Hd'] | [ds' [e [Hd' Hm']]]] _]].
        -- injection Hd' as <-. congruence.
        -- discriminate Hd'.
        -- injection Hd' as <-. congruence.
    + destruct (Image_open file) as [img | e3] eqn:Ho; cbn [fst snd].
      * split; [| reflexivity]. split; [| reflexivity].
        intros _. right. split; [| now exists img].
        right. exists ds, e2. split; [reflexivity | exact Hm].
      * split; [| discriminate]. split; [discriminate |].
        intros [[ds' [Hd' Hm']] | [_ [img Ho']]]; [| discriminate Ho'].
        injection Hd' as <-. congruence.
  - destruct (Image_open file) as [img | e3] eqn:Ho; cbn [fst snd].
    + split; [| reflexivity]. split; [| reflexivity].
      intros _. right. split; [| now exists img]. left. now exists e1.
    + split; [| discriminate]. split; [discriminate |].
      intros [[ds' [Hd' Hm']] | [_ [img Ho']]]; discriminate.
Qed.

Section Page.
Variable st_image : Image -> string -> M unit.

(** A rejected upload ends the page run with the "Invalid MRI image" error,
    after the decode warning if there was one; the image is not shown and
    the handler is not run, pressed or not. *)
Theorem tumor_detection_rejects (file : UploadedFile) (pressed : bool)
    (w : world) :
  (forall ds modality,
      dcmread file true = Return ds -> Modality ds = Return modality ->
      modality <> "MR" ->
      tumor_detection st_image (Some file) pressed w
      = (Return tt, printed w [StError invalid_mri_msg])) /\
  (forall e,
      dicom_attempt_raises file -> Image_open file = Raise e ->
      tumor_detection st_image (Some file) pressed w
      = (Return tt,
         printed w [StWarning ("Image validation failed: " ++ e)%string;
                    StError invalid_mri_msg])).
Proof.
  unfold dicom_attempt_raises, tumor_detection.
  unfold is_valid_mri, try_except, bind, lift, ret, st_warning, st_error.
  split.
  - intros ds m Hd Hm Hne. rewrite Hd, Hm.
    apply String.eqb_neq in Hne. rewrite Hne. reflexivity.
  - intros e [[e1 Hd] | [ds [e2 [Hd Hm]]]] Ho.
    + rewrite Hd, Ho. rewrite !run_emit, printed_printed. reflexivity.
    + rewrite Hd, Hm, Ho. rewrite !run_emit, printed_printed. reflexivity.
Qed.

(** A file accepted for its Modality "MR" is opened with [Image.open]
    outside any [try]: if Pillow cannot decode it, the page run raises that
    error, having printed nothing. *)
Theorem tumor_detection_raises_on_undecodable_dicom (file : UploadedFile)
    (pressed : bool) (w : world) (e : exn) :
  (exists ds, dcmread file true = Return ds /\ Modality ds = Return "MR") ->
  Image_open file = Raise e ->
  tumor_detection st_image (Some file) pressed w = (Raise e, w).
Proof.
  intros [ds [Hd Hm]] Ho. unfold tumor_detection.
  unfold is_valid_mri, try_except, bind, lift, ret.
  rewrite Hd, Hm, Ho. reflexivity.
Qed.

End Page.

End HandlerMore.

(** ** The chat helpers *)

(** [get_chatbot_response] never raises: it returns the service's text and
    prints nothing, or, when the session is missing or the call fails, it
    prints the error and returns the fixed apology. *)
Theorem get_chatbot_response_never_raises {ChatSession : Type}
    (send_message : ChatSession -> string -> result string)
    (chat_session : result ChatSession) (query : string) (w : world) :
  (forall session text,
      chat_session = Return session -> send_message session query = Return text ->
      get_chatbot_response send_message chat_session query w = (Return text, w)) /\
  (forall e,
      chat_session = Raise e \/
      (exists session,
          chat_session = Return session /\ send_message session query = Raise e) ->
      get_chatbot_response send_message chat_session query w
      = (Return apology,
         printed w [StError ("Error with Google Gemini API: " ++ e)%string])).
Proof.
  unfold get_chatbot_response, try_except, bind, lift, ret, st_error.
  split.
  - intros s text Hs Hm. rewrite Hs, Hm. reflexivity.
  - intros e [Hs | [s [Hs Hm]]].
    + rewrite Hs. reflexivity.
    + rewrite Hs, Hm. reflexivity.
Qed.

(** [translate_role_for_streamlit] never yields "model", is idempotent, and
    confuses no two roles other than "model" and "assistant". *)
Theorem translate_role_properties (a b : string) :
  translate_role_for_streamlit a <> "model" /\
  translate_role_for_streamlit (translate_role_for_streamlit a)
  = translate_role_for_streamlit a /\
  (translate_role_for_streamlit a = translate_role_for_streamlit b ->
   a = b \/ (a = "model" /\ b = "assistant") \/ (a = "assistant" /\ b = "model")).
Proof.
  unfold translate_role_for_streamlit.
  destruct (String.eqb_spec a "model") as [-> | Ha].
  - split; [discriminate |]. split; [reflexivity |].
    destruct (String.eqb_spec b "model") as [-> | Hb]; [now left |].
    intros <-. right. left. split; reflexivity.
  - split; [exact Ha |]. apply String.eqb_neq in Ha. rewrite Ha.
    split; [reflexivity |].
    destruct (String.eqb_spec b "model") as [-> | Hb]; [| now left].
    intros ->. right. right. split; reflexivity.
Qed.

(** ** The symptom scorer on any table and any selection *)

(** On every table with distinct condition names and no empty symptom
    list, scoring succeeds, prints nothing, and yields one entry per
    condition, in the order of the table, holding that condition's
    percentage. *)
Theorem scoring_any_table (tbl : list (string * list string))
    (selected : list string) (w : world) :
  NoDup (keys tbl) ->
  Forall (fun entry => snd entry <> []) tbl ->
  compute_probabilities tbl selected w = (Return (scored selected tbl), w) /\
  keys (scored selected tbl) = keys tbl /\
  values (scored selected tbl)
  = map (fun entry => percentage selected (snd entry)) tbl.
Proof.
  intros Hnd Hne. split; [now apply compute_probabilities_scored |].
  split; [apply keys_scored | apply values_scored].
Qed.

Lemma probability_empty (selected : list string) :
  probability selected [] = Raise "division by zero".
Proof. reflexivity. Qed.

Lemma probability_raises (selected l : list string) (e : exn) :
  probability selected l = Raise e -> e = "division by zero".
Proof.
  unfold probability, true_div.
  destruct (Z.eqb (Z.of_nat (length l)) 0); intros H; [| discriminate H].
  now injection H as <-.
Qed.

Lemma scoring_loop_raises (selected : list string)
    (tbl : list (string * list string)) (c : string)
    (acc : list (string * Q)) (w : world) :
  In (c, []) tbl ->
  for_fold tbl
    (fun probabilities '(condition, symptom_list) =>
       p <- lift (probability selected symptom_list) ;;
       ret (dict_set probabilities condition p))
    acc w
  = (Raise "division by zero", w).
Proof.
  revert acc. induction tbl as [| [c' l'] tbl IH]; intros acc Hin; [destruct Hin |].
  cbn [for_fold]. unfold bind at 1. unfold bind at 1. unfold lift, ret.
  destruct (probability selected l') as [p | e] eqn:Hp.
  - destruct Hin as [Hin | Hin].
    + injection Hin as -> ->. rewrite probability_empty in Hp. discriminate Hp.
    + now apply IH.
  - now rewrite (probability_raises _ _ _ Hp).
Qed.

(** A condition with an empty symptom list makes scoring raise
    "division by zero"; the handler then stops right after the "Selected
    Symptoms" line, and the error is not caught. *)
Theorem scoring_empty_list_raises (selected : list string) (c : string)
    (w : world) :
  In (c, []) (g_symptoms w) ->
  compute_probabilities (g_symptoms w) selected w = (Raise "division by zero", w) /\
  (selected <> [] ->
   diagnose selected w
   = (Raise "division by zero",
      printed w [StWrite ("Selected Symptoms: " ++ join ", " selected)%string])).
Proof.
  intros Hin. split.
  - unfold compute_probabilities. now apply scoring_loop_raises with c.
  - intros Hsel. destruct selected as [| s0 rest]; [congruence |].
    unfold diagnose. unfold st_write.
    erewrite run_bind by apply run_emit.
    erewrite run_bind by (unfold read_symptoms; reflexivity).
    cbn [g_symptoms printed].
    erewrite run_bind_raise; [reflexivity |].
    unfold compute_probabilities.
    now apply scoring_loop_raises with c.
Qed.

Lemma match_count_le (selected l : list string) :
  NoDup selected -> NoDup l -> (match_count selected l <= length l)%nat.
Proof.
  intros Hs Hl. rewrite match_count_sym by assumption. apply filter_length_le.
Qed.

Lemma percentage_range (selected l : list string) :
  NoDup selected -> NoDup l -> (0 <= percentage selected l <= 100)%Q.
Proof.
  intros Hs Hl.
  split; [apply percentage_nonneg |].
  unfold percentage.
  pose proof (match_count_le selected l Hs Hl) as Hle.
  destruct l as [| x l'].
  - unfold match_count. rewrite filter_none by reflexivity. discriminate.
  - setoid_replace (100 : Q) with (1 * 100)%Q at 2 by reflexivity.
    apply Qmult_le_compat_r; [| discriminate].
    apply Qle_shift_div_r.
    + change 0%Q with (inject_Z 0). rewrite <- Zlt_Qlt. simpl length. lia.
    + rewrite Qmult_1_l. rewrite <- Zle_Qle. lia.
Qed.

(** For a selection and a symptom list without repetitions the percentage
    lies between 0 and 100; a repeated selection entry can push it above
    100. *)
Theorem percentage_bounds (selected l : list string) :
  NoDup selected -> NoDup l ->
  (0 <= percentage selected l <= 100)%Q /\
  (percentage ["Fatigue"; "Fatigue"] ["Fatigue"] == 200)%Q.
Proof.
  intros Hs Hl. split; [now apply percentage_range | reflexivity].
Qed.

Lemma match_count_cons (s : string) (selected l : list string) :
  match_count (s :: selected) l
  = ((if str_in s l then 1 else 0) + match_count selected l)%nat.
Proof.
  unfold match_count. cbn [filter]. destruct (str_in s l); reflexivity.
Qed.

(** Adding a symptom to the selection never lowers a condition's
    percentage: it leaves it unchanged when the symptom is not listed for
    the condition and raises it by 100 / (number of listed symptoms) when it
    is. *)
Theorem selecting_more_never_lowers (s : string) (selected l : list string) :
  (percentage selected l <= percentage (s :: selected) l)%Q /\
  (str_in s l = false -> percentage (s :: selected) l = percentage selected l) /\
  (str_in s l = true ->
   percentage (s :: selected) l
   == percentage selected l + 100 / inject_Z (Z.of_nat (length l)))%Q.
Proof.
  unfold percentage. rewrite match_count_cons.
  split; [| split].
  - apply Qmult_le_compat_r; [| discriminate].
    apply Qmult_le_compat_r.
    + rewrite <- Zle_Qle. lia.
    + apply Qinv_le_0_compat.
      change 0%Q with (inject_Z 0). rewrite <- Zle_Qle. lia.
  - intros ->. reflexivity.
  - intros Hin. rewrite Hin.
    assert (Hl : l <> []) by (intros ->; discriminate Hin).
    replace (Z.of_nat (1 + match_count selected l))
      with (1 + Z.of_nat (match_count selected l))%Z by lia.
    rewrite inject_Z_plus.
    assert (Hpos : ~ (inject_Z (Z.of_nat (length l)) == 0)%Q).
    { destruct l; [congruence |]. unfold Qeq. simpl. lia. }
    field. exact Hpos.
Qed.

(** ** The checkbox page, completely *)

Lemma fold_left_concat {A B} (f : A -> B -> A) (ls : list (list B)) (a : A) :
  fold_left f (concat ls) a = fold_left (fun a l => fold_left f l a) ls a.
Proof.
  revert a. induction ls as [| l ls IH]; intros a; [reflexivity |].
  cbn [concat fold_left]. now rewrite fold_left_app, IH.
Qed.

Lemma NoDup_snoc {A} (l : list A) (x : A) :
  NoDup l -> ~ In x l -> NoDup (l ++ [x]).
Proof.
  intros Hl Hx. apply NoDup_rev in Hl.
  rewrite <- (rev_involutive (l ++ [x])). apply NoDup_rev.
  rewrite rev_app_distr. cbn [rev app]. constructor; [| exact Hl].
  now rewrite <- in_rev.
Qed.

(** The checkboxes after the symptoms in [flat] have been walked through,
    starting from the checkboxes [sel]. *)
Lemma checkbox_walk (checkbox : string -> bool) (flat : list string)
    (sel : list (string * bool)) :
  NoDup (keys sel) ->
  Forall (fun entry => snd entry = checkbox (fst entry)) sel ->
  let result :=
    fold_left
      (fun sel symptom =>
         if str_in symptom (keys sel) then sel
         else sel ++ [(symptom, checkbox symptom)])
      flat sel in
  NoDup (keys result) /\
  Forall (fun entry => snd entry = checkbox (fst entry)) result /\
  (forall s, In s (keys result) <-> In s (keys sel) \/ In s flat).
Proof.
  revert sel. induction flat as [| x flat IH]; intros sel Hnd Hcb; cbn zeta.
  - cbn [fold_left]. split; [exact Hnd |]. split; [exact Hcb |].
    intros s. cbn [In]. tauto.
  - cbn [fold_left]. destruct (str_in x (keys sel)) eqn:Hx.
    + destruct (IH sel Hnd Hcb) as [H1 [H2 H3]].
      split; [exact H1 |]. split; [exact H2 |].
      intros s. rewrite H3. cbn [In]. apply str_in_In in Hx.
      split; [tauto |]. intros [H | [<- | H]]; tauto.
    + apply str_in_false in Hx.
      destruct (IH (sel ++ [(x, checkbox x)])) as [H1 [H2 H3]].
      * unfold keys. rewrite map_app. cbn [map fst]. now apply NoDup_snoc.
      * apply Forall_app. split; [exact Hcb |]. now repeat constructor.
      * split; [exact H1 |]. split; [exact H2 |].
        intros s. rewrite H3. unfold keys. rewrite map_app, in_app_iff.
        cbn [map fst In]. tauto.
Qed.

(** Reading the ticked boxes off distinct labels gives distinct symptoms. *)
Lemma selected_symptoms_distinct (selection : list (string * bool)) :
  NoDup (keys selection) -> NoDup (selected_symptoms selection).
Proof.
  unfold keys, selected_symptoms.
  induction selection as [| [label ticked] rest IH]; intros Hnd; [constructor |].
  cbn [map fst] in Hnd. apply NoDup_cons_iff in Hnd. destruct Hnd as [Hfresh Hrest].
  cbn [filter snd]. destruct ticked; [| now apply IH].
  cbn [map fst]. apply NoDup_cons; [| now apply IH].
  intros Hin. apply Hfresh. apply in_map_iff in Hin.
  destruct Hin as [entry [Eentry Hentry]].
  apply filter_In in Hentry. apply in_map_iff. exists entry. tauto.
Qed.

(** The selection read off the page has no repetition, and a symptom is in
    it exactly when its box is ticked and it is listed under some condition
    of the table. *)
Theorem page_selection_spec (tbl : list (string * list string))
    (checkbox : string -> bool) :
  NoDup (selected_symptoms (symptom_selection tbl checkbox)) /\
  (forall s,
      In s (selected_symptoms (symptom_selection tbl checkbox)) <->
      checkbox s = true /\ In s (listed_symptoms tbl)).
Proof.
  unfold symptom_selection, listed_symptoms.
  rewrite <- fold_left_concat.
  destruct (checkbox_walk checkbox (concat (values tbl)) [])
    as [Hnd [Hcb Hkeys]]; [constructor | constructor |].
  set (result := fold_left _ (concat (values tbl)) []) in *.
  clearbody result.
  split.
  - now apply selected_symptoms_distinct.
  - intros s. rewrite Forall_forall in Hcb. split.
    + intros H. apply in_map_iff in H. destruct H as [[k b] [Ek Hin]].
      cbn [fst] in Ek. subst k. apply filter_In in Hin.
      destruct Hin as [Hin Hb]. cbn [snd] in Hb. subst b.
      split.
      * symmetry. exact (Hcb _ Hin).
      * assert (Hk : In s (keys result))
          by (apply in_map_iff; exists (s, true); auto).
        apply Hkeys in Hk. destruct Hk as [[] | Hk]. exact Hk.
    + intros [Ht Hl].
      assert (Hk : In s (keys result)) by (apply Hkeys; now right).
      apply in_map_iff in Hk. destruct Hk as [[k b] [Ek Hin]].
      cbn [fst] in Ek. subst k.
      apply in_map_iff. exists (s, b). split; [reflexivity |].
      apply filter_In. split; [exact Hin |].
      pose proof (Hcb _ Hin) as E. cbn [fst snd] in *. congruence.
Qed.

(** ** Which warning the handler prints *)

Lemma py_count_positive (xs : list Q) (m : Q) :
  In m xs -> (1 <= py_count xs m)%nat.
Proof.
  intros Hin. unfold py_count.
  assert (H : In m (filter (fun x => Qeq_bool x m) xs)).
  { apply filter_In. split; [exact Hin |]. apply Qeq_bool_iff. reflexivity. }
  destruct (filter (fun x => Qeq_bool x m) xs); [destruct H | simpl; lia].
Qed.

Lemma diagnose_signal_cases (selected : list string) (w : world) :
  selected <> [] -> g_symptoms w = symptoms ->
  exists max_prob signal,
    py_max (values (scored selected symptoms)) = Return max_prob /\
    diagnose selected w
    = (Return tt, printed w (report_lines selected ++ signal)) /\
    ((signal = [StWarning clash_msg] /\
      (2 <= py_count (values (scored selected symptoms)) max_prob)%nat) \/
     (signal = [] /\
      py_count (values (scored selected symptoms)) max_prob = 1%nat)).
Proof.
  intros Hsel Htbl.
  destruct (diagnose_report selected w Hsel Htbl) as [m [Hmax Hrun]].
  exists m. eexists. split; [exact Hmax |]. split; [exact Hrun |].
  destruct (py_max_upper _ _ Hmax) as [_ Hin].
  pose proof (py_count_positive _ _ Hin) as Hpos.
  destruct (Nat.ltb 1 (py_count (values (scored selected symptoms)) m)) eqn:Hc.
  - left. split; [reflexivity |]. apply Nat.ltb_lt in Hc. lia.
  - apply Nat.ltb_ge in Hc. right.
    destruct (Qeq_bool m 0) eqn:Hz.
    + exfalso. apply Qeq_bool_iff in Hz.
      assert (Hge : (2 <= py_count (values (scored selected symptoms)) m)%nat).
      { apply zero_max_is_shared; [| | exact Hmax | exact Hz].
        - rewrite values_scored, length_map. unfold symptoms. cbn [length]. lia.
        - rewrite values_scored. apply Forall_map, Forall_forall.
          intros entry _. apply percentage_nonneg. }
      lia.
    + split; [reflexivity | lia].
Qed.

(** On the static table the handler never raises, and for a non-empty
    selection the report is followed by the clash warning when two or more
    conditions share the largest percentage and by nothing when exactly one
    condition has it: the "No matching conditions" warning of line 208 is
    never printed. *)
Theorem diagnose_signal (selected : list string) (w : world) :
  selected <> [] -> g_symptoms w = symptoms ->
  exists max_prob signal,
    py_max (values (scored selected symptoms)) = Return max_prob /\
    diagnose selected w
    = (Return tt, printed w (report_lines selected ++ signal)) /\
    ((signal = [StWarning clash_msg] /\
      (2 <= py_count (values (scored selected symptoms)) max_prob)%nat) \/
     (signal = [] /\
      py_count (values (scored selected symptoms)) max_prob = 1%nat)).
Proof. exact (diagnose_signal_cases selected w). Qed.

(** For a selection without repetition of which at least one symptom is
    listed in the table (as every selection made on the page is), the
    largest percentage is above 0 and at most 100, and every printed
    percentage is the one the specification words. *)
Theorem diagnose_listed_selection (selected : list string) (s : string)
    (w : world) :
  NoDup selected -> In s selected -> In s (listed_symptoms symptoms) ->
  g_symptoms w = symptoms ->
  exists max_prob signal,
    py_max (values (scored selected symptoms)) = Return max_prob /\
    (0 < max_prob <= 100)%Q /\
    diagnose selected w
    = (Return tt,
       printed w
         ([StWrite ("Selected Symptoms: " ++ join ", " selected)%string;
           StWrite "Diagnosis Result:"]
          ++ map (fun entry =>
                    StWriteProb (fst entry) (spec_percentage selected (snd entry)))
                 symptoms
          ++ signal)) /\
    (signal = [] \/ signal = [StWarning clash_msg]).
Proof.
  intros Hnd Hin Hlisted Htbl.
  assert (Hsel : selected <> []) by (intros ->; destruct Hin).
  unfold listed_symptoms in Hlisted. apply in_concat in Hlisted.
  destruct Hlisted as [l [Hl Hsl]].
  destruct (listed_selection_scores selected l s Hin Hl Hsl) as [m [Hmax Hpos]].
  destruct (diagnose_signal_cases selected w Hsel Htbl) as [m' [signal [Hmax' [Hrun Hsig]]]].
  rewrite Hmax in Hmax'. injection Hmax' as <-.
  exists m, signal. split; [exact Hmax |].
  pose proof symptoms_lists_distinct as Hd. rewrite Forall_forall in Hd.
  split; [| split].
  - split; [exact Hpos |].
    destruct (py_max_upper _ _ Hmax) as [_ Hm].
    rewrite values_scored in Hm. apply in_map_iff in Hm.
    destruct Hm as [entry [<- Hentry]].
    apply percentage_range; [exact Hnd | now apply Hd].
  - rewrite Hrun. unfold report_lines. rewrite <- app_assoc.
    do 3 f_equal. f_equal. apply map_ext_in. intros entry Hentry.
    f_equal. apply percentage_spec; [exact Hnd | now apply Hd].
  - destruct Hsig as [[-> _] | [-> _]]; [now right | now left].
Qed.

(** ** The further properties at concrete inputs *)

Lemma predict_ignores_output_shape_witness :
  @predict Demo.pillow (Demo.services DemoMore.wide_model) Demo.grey2 boot
  = (Return (None, None),
     printed boot [StError "Error in prediction: list index out of range"]).
Proof.
  apply (@predict_ignores_output_shape
           Demo.pillow (Demo.services DemoMore.wide_model) Demo.grey2
           [[1 # 10; 1 # 10; 1 # 10; 1 # 10; 6 # 10]]%Q 4 (6 # 10)%Q boot).
  - reflexivity.
  - reflexivity.
  - repeat constructor; discriminate.
  - intros j y Hj Hy.
    do 4 (destruct j as [| j]; [injection Hy as <-; reflexivity |]). lia.
  - lia.
Defined.

Lemma explain_prediction_never_raises_witness :
  @explain_prediction Demo.pillow
    (DemoMore.services_with Demo.good_model (Raise "segmentation failed") []
       (Raise "unused") PageError (Return tt))
    Demo.grey2 boot
  = (Return tt, printed boot [explanation_error "segmentation failed"]).
Proof.
  apply (@explain_prediction_never_raises Demo.pillow
           (DemoMore.services_with Demo.good_model (Raise "segmentation failed") []
              (Raise "unused") PageError (Return tt))
           Demo.grey2 boot).
  reflexivity.
Defined.

Lemma on_predict_success_path_witness :
  @on_predict Demo.pillow
    (DemoMore.services_with Demo.good_model (Raise "segmentation failed") []
       (Raise "unused") PageError (Return tt))
    Demo.grey2 boot
  = (Return tt,
     printed boot
       [StWrite "Prediction: meningioma";
        explanation_error "segmentation failed";
        StWrite "Tumor Information: No information found on Wikipedia for meningioma.";
        EngineSay "No information found on Wikipedia for meningioma."]).
Proof.
  destruct (@on_predict_success_path Demo.pillow
              (DemoMore.services_with Demo.good_model (Raise "segmentation failed") []
                 (Raise "unused") PageError (Return tt))
              Demo.grey2 boot "meningioma"
              "No information found on Wikipedia for meningioma." (7 # 10)%Q)
    as [evs [_ [Hfail [Hrun _]]]].
  - vm_compute. reflexivity.
  - right. right. split; reflexivity.
  - rewrite (Hfail "segmentation failed" eq_refl) in Hrun.
    exact (Hrun eq_refl).
Defined.

Lemma on_predict_lookup_error_propagates_witness :
  exists evs,
    @on_predict Demo.pillow
      (DemoMore.services_with Demo.good_model (Raise "segmentation failed") []
         (Raise "unused") (OtherWikiError "HTTPTimeoutError") (Return tt))
      Demo.grey2 boot
    = (Raise "HTTPTimeoutError",
       printed boot (StWrite "Prediction: meningioma" :: evs)).
Proof.
  destruct (@on_predict_lookup_error_propagates Demo.pillow
              (DemoMore.services_with Demo.good_model (Raise "segmentation failed") []
                 (Raise "unused") (OtherWikiError "HTTPTimeoutError") (Return tt))
              Demo.grey2 boot "meningioma" (7 # 10)%Q "HTTPTimeoutError")
    as [evs [_ Hrun]].
  - vm_compute. reflexivity.
  - reflexivity.
  - exists evs. exact Hrun.
Defined.

Lemma on_predict_never_raises_witness :
  exists evs,
    @on_predict Demo.pillow
      (DemoMore.services_with Demo.good_model (Raise "segmentation failed") []
         (Raise "unused") DisambiguationError (Raise "no audio device"))
      Demo.rgb4 boot
    = (Return tt, printed boot evs).
Proof.
  apply (@on_predict_never_raises Demo.pillow
           (DemoMore.services_with Demo.good_model (Raise "segmentation failed") []
              (Raise "unused") DisambiguationError (Raise "no audio device"))
           Demo.rgb4 boot).
  intros c e _. discriminate.
Defined.

Lemma is_valid_mri_accepts_iff_witness :
  snd (@is_valid_mri Demo.pillow (Demo.services Demo.good_model)
         [Byte.x89; Byte.x50] boot) = boot.
Proof.
  apply (@is_valid_mri_accepts_iff Demo.pillow (Demo.services Demo.good_model)
           [Byte.x89; Byte.x50] boot).
  reflexivity.
Defined.

Lemma tumor_detection_rejects_witness :
  @tumor_detection Demo.pillow (Demo.services Demo.good_model)
    DemoMore.no_image (Some [Byte.x43; Byte.x54]) true boot
  = (Return tt, printed boot [StError invalid_mri_msg]).
Proof.
  apply (@tumor_detection_rejects Demo.pillow (Demo.services Demo.good_model)
           DemoMore.no_image [Byte.x43; Byte.x54] true boot)
    with (ds := [Byte.x43; Byte.x54]) (modality := "CT");
    [reflexivity | reflexivity | discriminate].
Defined.

Lemma tumor_detection_raises_on_undecodable_dicom_witness :
  @tumor_detection Demo.pillow (Demo.services Demo.good_model)
    DemoMore.no_image (Some [Byte.x4d; Byte.x52]) false boot
  = (Raise "cannot identify image file", boot).
Proof.
  apply (@tumor_detection_raises_on_undecodable_dicom
           Demo.pillow (Demo.services Demo.good_model)
           DemoMore.no_image [Byte.x4d; Byte.x52] false boot).
  - exists [Byte.x4d; Byte.x52]. split; reflexivity.
  - reflexivity.
Defined.

Lemma get_chatbot_response_never_raises_witness :
  get_chatbot_response DemoMore.echo (Raise "no chat session") "hello" boot
  = (Return apology,
     printed boot [StError "Error with Google Gemini API: no chat session"]).
Proof.
  apply (get_chatbot_response_never_raises DemoMore.echo
           (Raise "no chat session") "hello" boot).
  left. reflexivity.
Defined.

Lemma translate_role_properties_witness :
  "user" = "user" \/ ("user" = "model" /\ "user" = "assistant")
  \/ ("user" = "assistant" /\ "user" = "model").
Proof.
  apply (translate_role_properties "user" "user"). reflexivity.
Defined.

Lemma scoring_any_table_witness :
  compute_probabilities symptoms ["Fatigue"] boot
  = (Return (scored ["Fatigue"] symptoms), boot).
Proof.
  apply (scoring_any_table symptoms ["Fatigue"] boot).
  - apply symptoms_keys_distinct.
  - apply symptoms_lists_nonempty.
Defined.

Lemma scoring_empty_list_raises_witness :
  diagnose ["Headaches"] (mkWorld DemoMore.one_empty_list [])
  = (Raise "division by zero",
     printed (mkWorld DemoMore.one_empty_list [])
       [StWrite "Selected Symptoms: Headaches"]).
Proof.
  apply (scoring_empty_list_raises ["Headaches"] "No Tumor"
           (mkWorld DemoMore.one_empty_list [])).
  - right. left. reflexivity.
  - discriminate.
Defined.

Lemma percentage_bounds_witness :
  (0 <= percentage ["Headaches"] ["Headaches"; "Fatigue"] <= 100)%Q.
Proof.
  apply (percentage_bounds ["Headaches"] ["Headaches"; "Fatigue"]).
  - repeat constructor. intros [].
  - repeat constructor; cbn [In]; intros H;
      repeat (destruct H as [H | H]; [discriminate H |]); exact H.
Defined.

Lemma selecting_more_never_lowers_witness :
  (percentage ["Fatigue"] ["Fatigue"; "Headaches"]
   == percentage [] ["Fatigue"; "Headaches"]
      + 100 / inject_Z (Z.of_nat (length ["Fatigue"; "Headaches"])))%Q.
Proof.
  apply (selecting_more_never_lowers "Fatigue" [] ["Fatigue"; "Headaches"]).
  reflexivity.
Defined.

Lemma diagnose_signal_witness :
  exists max_prob signal,
    diagnose ["Fatigue"] boot
    = (Return tt, printed boot (report_lines ["Fatigue"] ++ signal)) /\
    ((signal = [StWarning clash_msg] /\
      (2 <= py_count (values (scored ["Fatigue"] symptoms)) max_prob)%nat) \/
     (signal = [] /\
      py_count (values (scored ["Fatigue"] symptoms)) max_prob = 1%nat)).
Proof.
  destruct (diagnose_signal ["Fatigue"] boot) as [m [signal [_ [Hrun Hsig]]]].
  - discriminate.
  - reflexivity.
  - exists m, signal. split; assumption.
Defined.

Lemma diagnose_listed_selection_witness :
  exists max_prob,
    py_max (values (scored ["Fatigue"] symptoms)) = Return max_prob /\
    (0 < max_prob <= 100)%Q.
Proof.
  destruct (diagnose_listed_selection ["Fatigue"] "Fatigue" boot)
    as [m [signal [Hmax [Hrange _]]]].
  - repeat constructor. intros [].
  - now left.
  - apply in_concat.
    exists ["Headaches"; "Vision problems"; "Unexplained weight gain or loss";
            "Changes in menstrual cycle or sexual function";
            "Growth of hands and feet (in case of acromegaly)";
            "Fatigue"; "Changes in mood or cognitive functions"].
    split; [do 3 right; left; reflexivity | do 5 right; left; reflexivity].
  - reflexivity.
  - exists m. split; assumption.
Defined.

(** ** The zero-maximum case of the scorer *)




(** ** What the explainer receives *)




Section ExplainerFacts.
Context {P : Pillow} (HP : PillowSpec P) {K : Services}.


End ExplainerFacts.


(** The preprocessed tensor of the 2 by 2 grey image, at the last pixel:
    the source sample 150 over 255, on each of the three channels. *)
Example preprocess_image_last_pixel :
  nth 149 (nth 149 (hd [] (@preprocess_image Demo.pillow Demo.grey2)) []) []
  = [150 # 255; 150 # 255; 150 # 255]%Q.
Proof. vm_compute. reflexivity. Qed.
